(** * firebase-realtime-database: schema-checked accessors over a JSON-tree store

    A shallow embedding of the TypeScript sources

    - [src/firebase.ts] and its later revision (the [FirebaseSDK] REST
      transport with its bearer-token cache),
    - the accessor layer written over [FirebaseSDK] ([FirebaseCollection],
      [FirebaseTable], [FirebaseApp]),
    - [src/index.ts], the accessor layer written over the
      [firebase-admin] [Database] handle and [uuid],

    followed by the properties of the specification, stated over these
    definitions.

    Conventions.  JavaScript values are the inductive [value]; numbers are
    the integers that a JavaScript number holds exactly and prints in plain
    decimal (time stamps, counts, prices in the examples), so [now + 33e5]
    is integer addition; fractions and magnitudes from 2^53 on are outside
    the model.  Strings are sequences of bytes, the UTF-8 form of the text;
    where JavaScript takes a string apart per UTF-16 code unit the model
    does so per byte, which is the same for ASCII text.  An object lists
    its properties in the order JavaScript reports them (array indices
    first).  Asynchronous code is run to completion in program
    order: an [await] is sequencing in the monad [M].  Everything outside the
    repository (the clock, the auth provider, the remote store, the schema
    engine, [uuid]) is a parameter. *)

From Stdlib Require Import List String Ascii ZArith Lia Bool DecimalString.
Import ListNotations.
Open Scope string_scope.
Open Scope Z_scope.

(** ** JavaScript values and the built-ins the sources use *)

Module JS.

#[warnings="-register-all"]
Inductive value : Type :=
| VUndefined
| VNull
| VBool (b : bool)
| VNum (n : Z)
| VStr (s : string)
| VArr (l : list value)
| VObj (o : list (string * value)).

(** An object is the list of its own enumerable properties in the order
    [Object.keys] reports them. *)
Definition object := list (string * value).

(** [if ( v )] *)
Definition truthy (v : value) : bool :=
  match v with
  | VUndefined | VNull => false
  | VBool b => b
  | VNum n => negb (n =? 0)
  | VStr s => negb (s =? EmptyString)%string
  | VArr _ | VObj _ => true
  end.

(** [typeof v === "string"] *)
Definition is_string (v : value) : bool :=
  match v with VStr _ => true | _ => false end.

Definition dquote : string := String (ascii_of_nat 34) EmptyString.
Definition backslash : string := String (ascii_of_nat 92) EmptyString.

Definition string_of_Z (n : Z) : string := NilZero.string_of_int (Z.to_int n).
Definition string_of_nat (n : nat) : string := string_of_Z (Z.of_nat n).

Definition hex_digit (upper : bool) (n : nat) : ascii :=
  if (n <? 10)%nat then ascii_of_nat (48 + n)
  else ascii_of_nat ((if upper then 55 else 87) + n).

Definition hex_byte (upper : bool) (c : ascii) : string :=
  let n := nat_of_ascii c in
  String (hex_digit upper (n / 16)) (String (hex_digit upper (n mod 16)) EmptyString).

Fixpoint join (sep : string) (l : list string) : string :=
  match l with
  | [] => EmptyString
  | [s] => s
  | s :: rest => s ++ sep ++ join sep rest
  end.

(** The escapes of [JSON.stringify] on a string (QuoteJSONString). *)
Definition json_escape_char (c : ascii) : string :=
  let n := nat_of_ascii c in
  if (n =? 34)%nat then backslash ++ dquote
  else if (n =? 92)%nat then backslash ++ backslash
  else if (n =? 8)%nat then backslash ++ "b"
  else if (n =? 9)%nat then backslash ++ "t"
  else if (n =? 10)%nat then backslash ++ "n"
  else if (n =? 12)%nat then backslash ++ "f"
  else if (n =? 13)%nat then backslash ++ "r"
  else if (n <? 32)%nat then backslash ++ "u00" ++ hex_byte false c
  else String c EmptyString.

Fixpoint json_escape (s : string) : string :=
  match s with
  | EmptyString => EmptyString
  | String c rest => json_escape_char c ++ json_escape rest
  end.

Definition json_quote (s : string) : string := dquote ++ json_escape s ++ dquote.

(** [JSON.stringify( v )]: [None] is the JavaScript [undefined] it yields for
    [undefined]; inside an array [undefined] prints as [null], inside an
    object the property is left out. *)
Fixpoint JSON_stringify (v : value) : option string :=
  match v with
  | VUndefined => None
  | VNull => Some "null"
  | VBool true => Some "true"
  | VBool false => Some "false"
  | VNum n => Some (string_of_Z n)
  | VStr s => Some (json_quote s)
  | VArr l =>
      Some ("[" ++ join ","
              (map (fun x => match JSON_stringify x with
                             | Some s => s
                             | None => "null"
                             end) l) ++ "]")
  | VObj o =>
      Some ("{" ++ join ","
              ((fix members (o : list (string * value)) : list string :=
                  match o with
                  | [] => []
                  | (k, x) :: rest =>
                      match JSON_stringify x with
                      | Some s => (json_quote k ++ ":" ++ s) :: members rest
                      | None => members rest
                      end
                  end) o) ++ "}")
  end.

(** [String( v )], the conversion a template literal applies. *)
Fixpoint to_string (v : value) : string :=
  match v with
  | VUndefined => "undefined"
  | VNull => "null"
  | VBool true => "true"
  | VBool false => "false"
  | VNum n => string_of_Z n
  | VStr s => s
  | VArr l =>
      join "," (map (fun x => match x with
                              | VUndefined | VNull => EmptyString
                              | _ => to_string x
                              end) l)
  | VObj _ => "[object Object]"
  end.

(** Conversion of an optional string ([string | undefined]) to a string. *)
Definition string_or_undefined (s : option string) : string :=
  match s with Some s => s | None => "undefined" end.

Fixpoint indexed {A : Type} (i : nat) (l : list A) : list (string * A) :=
  match l with
  | [] => []
  | x :: rest => (string_of_nat i, x) :: indexed (S i) rest
  end.

Fixpoint chars (s : string) : list value :=
  match s with
  | EmptyString => []
  | String c rest => VStr (String c EmptyString) :: chars rest
  end.

(** The own enumerable properties of a value, as [Object.entries] and the
    spread and rest syntax see them. *)
Definition own_entries (v : value) : object :=
  match v with
  | VObj o => o
  | VArr l => indexed 0 l
  | VStr s => indexed 0 (chars s)
  | _ => []
  end.

(** [Object.keys( v )] *)
Definition Object_keys (v : value) : list string := map fst (own_entries v).

Fixpoint assoc (k : string) (o : object) : option value :=
  match o with
  | [] => None
  | (k', x) :: rest => if (k =? k')%string then Some x else assoc k rest
  end.

(** [v[k]] for an own property; a missing property reads [undefined]. *)
Definition get_prop (v : value) (k : string) : value :=
  match assoc k (own_entries v) with
  | Some x => x
  | None => VUndefined
  end.

(** [o[k] = x] on an object literal under construction: an existing property
    keeps its place, a new one goes last. *)
Fixpoint obj_set (k : string) (x : value) (o : object) : object :=
  match o with
  | [] => [(k, x)]
  | (k', y) :: rest =>
      if (k =? k')%string then (k', x) :: rest else (k', y) :: obj_set k x rest
  end.

(** [const { k, ...rest } = v]: the [rest] part. *)
Definition rest_without (k : string) (v : value) : object :=
  filter (fun p => negb (k =? fst p)%string) (own_entries v).

(** [Object.keys( v )[0]] and its use as a computed key and as a value. *)
Definition first_key (v : value) : option string := hd_error (Object_keys v).

Definition key_value (k : option string) : value :=
  match k with Some s => VStr s | None => VUndefined end.

(** [{ ...v, _id }] *)
Definition spread_with_id (v : value) (_id : option string) : value :=
  VObj (obj_set "_id" (key_value _id) (own_entries v)).

End JS.

(** ** Computations

    State is threaded through; [Thrown] is a raised exception, which
    abandons the rest of the computation and keeps the state reached. *)

Module Effect.

Inductive error : Type :=
| ZodError (issues : list string)   (* thrown by [schema.parse] *)
| TypeError.                        (* destructuring [null] *)

Inductive outcome (A : Type) : Type :=
| Ok (a : A)
| Thrown (e : error).
Arguments Ok {A} a.
Arguments Thrown {A} e.

Definition M (W A : Type) : Type := W -> outcome A * W.

Definition ret {W A : Type} (a : A) : M W A := fun w => (Ok a, w).

Definition throw {W A : Type} (e : error) : M W A := fun w => (Thrown e, w).

Definition bind {W A B : Type} (c : M W A) (k : A -> M W B) : M W B :=
  fun w =>
    match c w with
    | (Ok a, w') => k a w'
    | (Thrown e, w') => (Thrown e, w')
    end.

Definition gets {W A : Type} (f : W -> A) : M W A := fun w => (Ok (f w), w).

Definition modify {W : Type} (f : W -> W) : M W unit := fun w => (Ok tt, f w).

End Effect.

Import Effect.

Notation "x <- c ;; k" := (bind c (fun x => k))
  (at level 61, c at next level, right associativity).
Notation "c ;; k" := (bind c (fun _ => k))
  (at level 61, right associativity).

(** ** The world outside the repository *)

Inductive http_method : Type := GET | PUT | POST | PATCH | DELETE.

(** The arguments of one [fetch] call. *)
Record request : Type := mkRequest {
  url : string;
  method : http_method;
  cache : option string;
  body : option string;
  headers : list (string * string)
}.

(** What the sources reach through [Date.now], [GoogleAuth.getAccessToken]
    and [fetch].  The clock and the auth provider are answer streams, read
    one answer per call.  The remote store answers a [GET] from its state and
    leaves it as it is; every other method may change it. *)
Class Environment : Type := {
  Store : Type;
  clock : nat -> Z;
  provider : nat -> string;
  store_read : Store -> request -> JS.value;
  store_write : request -> Store -> JS.value * Store
}.

(** ** [FirebaseSDK]: the REST transport and its token cache *)

Module FirebaseSDK.
Import JS.

(** [private storage = { token: '', expire: 0 }] *)
Record storage : Type := mkStorage {
  token : string;
  expire : Z
}.

(** The two revisions of the class have the same methods.  They differ in
    the [cache] option of their requests ([src/firebase.ts] passes none, the
    later one ['no-store']) and in how the credentials are handed to the
    auth provider, which is a parameter here. *)
Inductive revision : Type := Original | NoStore.

Record t : Type := mkSDK {
  target : string;
  cache_option : option string
}.

Fixpoint ends_with_slash (s : string) : bool :=
  match s with
  | EmptyString => false
  | String c EmptyString => (nat_of_ascii c =? 47)%nat
  | String _ rest => ends_with_slash rest
  end.

(** [s.slice( 0, -1 )] *)
Fixpoint drop_last (s : string) : string :=
  match s with
  | EmptyString => EmptyString
  | String _ EmptyString => EmptyString
  | String c rest => String c (drop_last rest)
  end.

(** [constructor( ServiceAccount )]; the credentials go to the auth
    provider, which is a parameter. *)
Definition new (r : revision) (database : string) : t :=
  {| target := if ends_with_slash database then drop_last database else database;
     cache_option := match r with Original => None | NoStore => Some "no-store" end |}.

(** [URLSearchParams] *)
Definition URLSearchParams := list (string * string).

Fixpoint remove_named (name : string) (p : URLSearchParams) : URLSearchParams :=
  match p with
  | [] => []
  | (n, v) :: rest =>
      if (name =? n)%string then remove_named name rest
      else (n, v) :: remove_named name rest
  end.

(** [params.set( name, v )]: the first entry of that name takes the value
    and the others go; with no such entry one is appended. *)
Fixpoint params_set (name v : string) (p : URLSearchParams) : URLSearchParams :=
  match p with
  | [] => [(name, v)]
  | (n, old) :: rest =>
      if (name =? n)%string then (n, v) :: remove_named name rest
      else (n, old) :: params_set name v rest
  end.

(** The [application/x-www-form-urlencoded] byte serializer. *)
Definition form_unreserved (n : nat) : bool :=
  ((48 <=? n) && (n <=? 57) || (65 <=? n) && (n <=? 90) || (97 <=? n) && (n <=? 122)
   || (n =? 42) || (n =? 45) || (n =? 46) || (n =? 95))%nat.

Definition form_encode_char (c : ascii) : string :=
  let n := nat_of_ascii c in
  if (n =? 32)%nat then "+"
  else if form_unreserved n then String c EmptyString
  else "%" ++ hex_byte true c.

Fixpoint form_encode (s : string) : string :=
  match s with
  | EmptyString => EmptyString
  | String c rest => form_encode_char c ++ form_encode rest
  end.

(** [params.toString()] *)
Definition params_toString (p : URLSearchParams) : string :=
  join "&" (map (fun nv => form_encode (fst nv) ++ "=" ++ form_encode (snd nv)) p).

(** [typeof value === "string" ? `"${ value }"` : JSON.stringify( value )],
    converted to a string by [params.set]. *)
Definition query_value (v : value) : string :=
  match v with
  | VStr s => dquote ++ s ++ dquote
  | _ => string_or_undefined (JSON_stringify v)
  end.

(** The loop of [orderBy] over [Object.entries( query )]. *)
Definition query_params (query : object) : URLSearchParams :=
  fold_left (fun params kv => params_set (fst kv) (query_value (snd kv)) params)
            query [].

(** [typeof value === 'string' ? value : JSON.stringify( value )] *)
Definition body_of (v : value) : option string :=
  match v with
  | VStr s => Some s
  | _ => JSON_stringify v
  end.

Section WithEnvironment.
Context {E : Environment}.

(** The state of one [FirebaseSDK] instance and of what it reaches: a world
    holds the [storage] of that one instance.  Two instances, as two
    applications create them, would each have a cache of their own; no
    statement below is about more than one instance. *)
Record world : Type := mkWorld {
  cached : storage;          (* [this.storage] *)
  ticks : nat;               (* clock readings taken so far *)
  auth_calls : nat;          (* tokens requested from the provider so far *)
  requests : list request;   (* the [fetch] calls made so far, oldest first *)
  store : Store              (* the remote store *)
}.

Definition initial (s : Store) : world :=
  {| cached := {| token := EmptyString; expire := 0 |};
     ticks := 0; auth_calls := 0; requests := []; store := s |}.

Definition Date_now : M world Z :=
  fun w => (Ok (clock (ticks w)),
            mkWorld (cached w) (S (ticks w)) (auth_calls w) (requests w) (store w)).

Definition auth_getAccessToken : M world string :=
  fun w => (Ok (provider (auth_calls w)),
            mkWorld (cached w) (ticks w) (S (auth_calls w)) (requests w) (store w)).

Definition set_storage (f : storage -> storage) : M world unit :=
  modify (fun w => mkWorld (f (cached w)) (ticks w) (auth_calls w) (requests w) (store w)).

(** [fetch( url, options )] followed, where the source reads it, by
    [response.json()]. *)
Definition fetch (r : request) : M world value :=
  fun w =>
    match method r with
    | GET =>
        (Ok (store_read (store w) r),
         mkWorld (cached w) (ticks w) (auth_calls w) (requests w ++ [r]) (store w))
    | _ =>
        let (answer, s) := store_write r (store w) in
        (Ok answer,
         mkWorld (cached w) (ticks w) (auth_calls w) (requests w ++ [r]) s)
    end.

Definition getAccessToken : M world string :=
  now <- Date_now ;;
  st <- gets cached ;;
  (if negb (truthy (VStr (token st))) || (expire st <? now) then
     fresh <- auth_getAccessToken ;;
     set_storage (fun s => mkStorage fresh (expire s)) ;;
     set_storage (fun s => mkStorage (token s) (now + 3300000))
   else ret tt) ;;
  gets (fun w => token (cached w)).

Definition bearer (tok : string) : string * string :=
  ("Authorization", "Bearer " ++ tok).

Definition node_url (sdk : t) (path : string) : string :=
  target sdk ++ "/" ++ path ++ ".json".

(** The requests of the six public methods, given the token they obtained. *)
Definition get_request (sdk : t) (path tok : string) : request :=
  {| url := node_url sdk path; method := GET; cache := cache_option sdk;
     body := None; headers := [bearer tok] |}.

Definition orderBy_request (sdk : t) (path : string) (query : object) (tok : string)
  : request :=
  let params := query_params query in
  {| url := node_url sdk path ++ "?" ++ params_toString params;
     method := GET; cache := cache_option sdk;
     body := None; headers := [bearer tok] |}.

Definition set_request (sdk : t) (path : string) (v : value) (tok : string) : request :=
  {| url := node_url sdk path; method := PUT; cache := cache_option sdk;
     body := body_of v;
     headers := [("Content-Type", "application/json; charset=utf8"); bearer tok] |}.

Definition push_request (sdk : t) (path : string) (v : value) (tok : string) : request :=
  {| url := node_url sdk path; method := POST; cache := cache_option sdk;
     body := JSON_stringify v;
     headers := [("Content-Type", "application/json; charset=utf-8"); bearer tok] |}.

Definition update_request (sdk : t) (path : string) (v : value) (tok : string) : request :=
  {| url := node_url sdk path; method := PATCH; cache := cache_option sdk;
     body := body_of v;
     headers := [("Content-Type", "application/json; charset=utf8"); bearer tok] |}.

Definition delete_request (sdk : t) (path tok : string) : request :=
  {| url := node_url sdk path; method := DELETE; cache := cache_option sdk;
     body := None; headers := [bearer tok] |}.

Definition get (sdk : t) (path : string) : M world value :=
  tok <- getAccessToken ;;
  fetch (get_request sdk path tok).

Definition orderBy (sdk : t) (path : string) (query : object) : M world value :=
  tok <- getAccessToken ;;
  fetch (orderBy_request sdk path query tok).

Definition set (sdk : t) (path : string) (v : value) : M world unit :=
  tok <- getAccessToken ;;
  fetch (set_request sdk path v tok) ;;
  ret tt.

(** [const { name } = await res.json()] throws on [null]. *)
Definition push (sdk : t) (path : string) (v : value) : M world value :=
  tok <- getAccessToken ;;
  res <- fetch (push_request sdk path v tok) ;;
  match res with
  | VNull | VUndefined => throw TypeError
  | _ => ret (get_prop res "name")
  end.

Definition update (sdk : t) (path : string) (v : value) : M world unit :=
  tok <- getAccessToken ;;
  fetch (update_request sdk path v tok) ;;
  ret tt.

Definition delete (sdk : t) (path : string) : M world unit :=
  tok <- getAccessToken ;;
  fetch (delete_request sdk path tok) ;;
  ret tt.

(** The world a call of [getAccessToken] leaves, in closed form: used to
    state what the public methods do. *)
Definition stale (w : world) : bool :=
  negb (truthy (VStr (token (cached w)))) || (expire (cached w) <? clock (ticks w)).

Definition with_token (w : world) : world :=
  if stale w then
    mkWorld (mkStorage (provider (auth_calls w)) (clock (ticks w) + 3300000))
            (S (ticks w)) (S (auth_calls w)) (requests w) (store w)
  else mkWorld (cached w) (S (ticks w)) (auth_calls w) (requests w) (store w).

Definition current_token (w : world) : string := token (cached (with_token w)).

(** A run of [n] consecutive [getAccessToken] calls: for each call the
    instant it read, the token it returned, and the expiry instant the cache
    holds for that token when the call returns. *)
Record token_use : Type := mkUse {
  call_time : Z;
  returned : outcome string;
  held_token : string;
  held_expiry : Z
}.

Fixpoint token_calls (n : nat) (w : world) : list token_use :=
  match n with
  | O => []
  | S k =>
      let (r, w') := getAccessToken w in
      mkUse (clock (ticks w)) r (token (cached w')) (expire (cached w'))
        :: token_calls k w'
  end.

End WithEnvironment.

End FirebaseSDK.

(** ** The schema engine

    [z.object( schema )] is opaque: its [parse] either returns the parsed
    data or throws a [ZodError] with its issues. *)

Module Zod.

Inductive parsed : Type :=
| Parsed (data : JS.value)
| Invalid (issues : list string).

Definition schema : Type := JS.value -> parsed.

(** [schema.parse( v )] *)
Definition parse {W : Type} (s : schema) (v : JS.value) : M W JS.value :=
  match s v with
  | Parsed data => ret data
  | Invalid issues => throw (ZodError issues)
  end.

(** The values [s] lets through. *)
Definition validated (s : schema) (data : JS.value) : Prop :=
  exists v, s v = Parsed data.

End Zod.

(** ** The accessor layer over [FirebaseSDK] *)

Module Rest.
Import JS.

Module FirebaseCollection.
Section WithEnvironment.
Context {E : Environment}.

Record t : Type := mk {
  database : FirebaseSDK.t;
  schema : Zod.schema;
  name : string
}.

Definition get (c : t) : M FirebaseSDK.world value :=
  FirebaseSDK.get (database c) (name c).

Definition set (c : t) (v : value) : M FirebaseSDK.world unit :=
  data <- Zod.parse (schema c) v ;;
  FirebaseSDK.set (database c) (name c) data.

Definition delete (c : t) : M FirebaseSDK.world unit :=
  FirebaseSDK.delete (database c) (name c).

Definition update (c : t) (FunctionCallback : value -> value)
  : M FirebaseSDK.world unit :=
  legacy <- get c ;;
  let update := FunctionCallback legacy in
  if truthy legacy then FirebaseSDK.update (database c) (name c) update
  else FirebaseSDK.set (database c) (name c) update.

End WithEnvironment.
End FirebaseCollection.

Module FirebaseTable.
Section WithEnvironment.
Context {E : Environment}.

Record t : Type := mk {
  database : FirebaseSDK.t;
  schema : Zod.schema;
  name : string
}.

(** [`${ this.name }/${ id }`] *)
Definition row_path (tb : t) (id : string) : string := name tb ++ "/" ++ id.

(** [{ ...snapshot[_id], _id }] for every [_id] of [Object.keys( snapshot )] *)
Definition rows (snapshot : value) : list value :=
  map (fun _id => spread_with_id (get_prop snapshot _id) (Some _id))
      (Object_keys snapshot).

Definition create (tb : t) (v : value) : M FirebaseSDK.world value :=
  data <- Zod.parse (schema tb) v ;;
  FirebaseSDK.push (database tb) (name tb) data.

Definition findAll (tb : t) : M FirebaseSDK.world (list value) :=
  snapshot <- FirebaseSDK.get (database tb) (name tb) ;;
  ret (if truthy snapshot then rows snapshot else []).

Definition findById (tb : t) (id : string) : M FirebaseSDK.world value :=
  response <- FirebaseSDK.get (database tb) (row_path tb id) ;;
  ret (if truthy response then response else VUndefined).

Definition child_query (where_ : string) (v : value) : object :=
  [("orderBy", VStr where_); ("equalTo", v)].

Definition findByChild (tb : t) (where_ : string) (v : value)
  : M FirebaseSDK.world value :=
  snapshot <- FirebaseSDK.orderBy (database tb) (name tb) (child_query where_ v) ;;
  ret (if truthy snapshot then
         let _id := first_key snapshot in
         spread_with_id (get_prop snapshot (string_or_undefined _id)) _id
       else VUndefined).

Definition filterByChild (tb : t) (where_ : string) (v : value)
  : M FirebaseSDK.world (list value) :=
  snapshot <- FirebaseSDK.orderBy (database tb) (name tb) (child_query where_ v) ;;
  ret (if truthy snapshot then rows snapshot else []).

Definition transitionByChild (tb : t) (key : string) (v : value)
    (FunctionUpdate : value -> value) : M FirebaseSDK.world unit :=
  legacy <- findByChild tb key v ;;
  if truthy legacy then
    let update := FunctionUpdate legacy in
    if truthy update then
      let _id := get_prop update "_id" in
      let data := VObj (rest_without "_id" update) in
      FirebaseSDK.update (database tb) (row_path tb (to_string _id)) data
    else ret tt
  else ret tt.

Definition transitionById (tb : t) (id : string)
    (FunctionUpdate : value -> value) : M FirebaseSDK.world unit :=
  legacy <- findById tb id ;;
  if truthy legacy then
    let update := FunctionUpdate legacy in
    if truthy update then
      FirebaseSDK.update (database tb) (row_path tb id) update
    else ret tt
  else ret tt.

Definition deleteById (tb : t) (id : string) : M FirebaseSDK.world unit :=
  FirebaseSDK.delete (database tb) (row_path tb id).

End WithEnvironment.
End FirebaseTable.

Module FirebaseApp.

Record t : Type := mk { database : FirebaseSDK.t }.

Definition new (r : FirebaseSDK.revision) (database_url : string) : t :=
  {| database := FirebaseSDK.new r database_url |}.

Definition collection (app : t) (name : string) (schema : Zod.schema)
  : FirebaseCollection.t :=
  FirebaseCollection.mk (database app) schema name.

Definition table (app : t) (name : string) (schema : Zod.schema)
  : FirebaseTable.t :=
  FirebaseTable.mk (database app) schema name.

End FirebaseApp.

End Rest.

(** ** The accessor layer of [src/index.ts], over [firebase-admin]

    The [Database] handle is outside the repository.  Its calls are recorded
    in the order they are made; a read is answered by a snapshot of the
    store and leaves it as it is, a write changes it. *)

Module Admin.
Import JS.

(** [ref( path ).get()] and [ref( path ).orderByChild( child ).equalTo( v ).get()] *)
Inductive db_read : Type :=
| RefGet (path : string)
| QueryGet (path child : string) (v : value).

(** [ref( path ).set( data )], [.update( data )] and [.remove()] *)
Inductive db_write : Type :=
| RefSet (path : string) (data : value)
| RefUpdate (path : string) (data : value)
| RefRemove (path : string).

Inductive db_call : Type :=
| Read (r : db_read)
| Write (w : db_write).

(** [snapshot.exists()] and [snapshot.val()] *)
Record snapshot : Type := mkSnapshot {
  snapshot_exists : bool;
  snapshot_val : value
}.

Class Environment : Type := {
  Store : Type;
  uuid : nat -> string;
  db_snapshot : Store -> db_read -> snapshot;
  db_apply : db_write -> Store -> Store
}.

Section WithEnvironment.
Context {E : Environment}.

Record world : Type := mkWorld {
  calls : list db_call;   (* the [Database] calls made so far, oldest first *)
  uuid_calls : nat;       (* identifiers drawn so far *)
  store : Store
}.

Definition initial (s : Store) : world :=
  {| calls := []; uuid_calls := 0; store := s |}.

Definition read (r : db_read) : M world snapshot :=
  fun w => (Ok (db_snapshot (store w) r),
            mkWorld (calls w ++ [Read r]) (uuid_calls w) (store w)).

Definition write (op : db_write) : M world unit :=
  fun w => (Ok tt,
            mkWorld (calls w ++ [Write op]) (uuid_calls w) (db_apply op (store w))).

(** [uuid()] *)
Definition fresh_uuid : M world string :=
  fun w => (Ok (uuid (uuid_calls w)),
            mkWorld (calls w) (S (uuid_calls w)) (store w)).

(** [snapshot.exists() ? snapshot.val() : undefined] *)
Definition val_or_undefined (s : snapshot) : value :=
  if snapshot_exists s then snapshot_val s else VUndefined.

End WithEnvironment.

Module FirebaseCollection.
Section WithEnvironment.
Context {E : Environment}.

Record t : Type := mk {
  schema : Zod.schema;
  name : string
}.

Definition get (c : t) : M world value :=
  snapshot <- read (RefGet (name c)) ;;
  ret (val_or_undefined snapshot).

Definition set (c : t) (v : value) : M world unit :=
  data <- Zod.parse (schema c) v ;;
  write (RefSet (name c) data).

Definition delete (c : t) : M world unit :=
  write (RefRemove (name c)).

Definition update (c : t) (FunctionCallback : value -> value) : M world unit :=
  legacy <- get c ;;
  let update := FunctionCallback legacy in
  if truthy legacy then write (RefUpdate (name c) update)
  else write (RefSet (name c) update).

End WithEnvironment.
End FirebaseCollection.

Module FirebaseTable.
Section WithEnvironment.
Context {E : Environment}.

Record t : Type := mk {
  schema : Zod.schema;
  name : string
}.

Definition row_path (tb : t) (id : string) : string := name tb ++ "/" ++ id.

Definition rows (v : value) : list value :=
  map (fun _id => spread_with_id (get_prop v _id) (Some _id)) (Object_keys v).

Definition create (tb : t) (v : value) : M world string :=
  data <- Zod.parse (schema tb) v ;;
  id <- fresh_uuid ;;
  write (RefSet (row_path tb id) data) ;;
  ret id.

Definition findAll (tb : t) : M world (list value) :=
  snapshot <- read (RefGet (name tb)) ;;
  ret (if snapshot_exists snapshot then rows (snapshot_val snapshot) else []).

Definition findById (tb : t) (id : string) : M world value :=
  snapshot <- read (RefGet (row_path tb id)) ;;
  ret (val_or_undefined snapshot).

Definition findByChild (tb : t) (where_ : string) (v : value) : M world value :=
  snapshot <- read (QueryGet (name tb) where_ v) ;;
  ret (if snapshot_exists snapshot then
         let value := snapshot_val snapshot in
         let _id := first_key value in
         spread_with_id (get_prop value (string_or_undefined _id)) _id
       else VUndefined).

Definition filterByChild (tb : t) (where_ : string) (v : value)
  : M world (list value) :=
  snapshot <- read (QueryGet (name tb) where_ v) ;;
  ret (if snapshot_exists snapshot then rows (snapshot_val snapshot) else []).

Definition transitionByChild (tb : t) (key : string) (v : value)
    (FunctionUpdate : value -> value) : M world unit :=
  legacy <- findByChild tb key v ;;
  if truthy legacy then
    let update := FunctionUpdate legacy in
    if truthy update then
      let _id := get_prop update "_id" in
      let data := VObj (rest_without "_id" update) in
      write (RefUpdate (row_path tb (to_string _id)) data)
    else ret tt
  else ret tt.

Definition transitionById (tb : t) (id : string)
    (FunctionUpdate : value -> value) : M world unit :=
  legacy <- findById tb id ;;
  if truthy legacy then
    let update := FunctionUpdate legacy in
    if truthy update then write (RefUpdate (row_path tb id) update)
    else ret tt
  else ret tt.

Definition deleteById (tb : t) (id : string) : M world unit :=
  write (RefRemove (row_path tb id)).

End WithEnvironment.
End FirebaseTable.

End Admin.

(** ** Concrete surroundings for the examples *)

Module Examples.
Import JS.

(** The schema [{ price: z.number().positive() }]. *)
Definition price_schema : Zod.schema :=
  fun v =>
    match v with
    | VObj _ =>
        match get_prop v "price" with
        | VNum p =>
            if 0 <? p then Zod.Parsed (VObj [("price", VNum p)])
            else Zod.Invalid ["price: too small"]
        | _ => Zod.Invalid ["price: expected number"]
        end
    | _ => Zod.Invalid ["expected object"]
    end.

(** A store that answers every read with [read_answer] and every write with
    [write_answer], and counts the writes it has applied; a clock that
    advances one second per reading; a provider that numbers its tokens. *)
Definition scripted (read_answer write_answer : value) : Environment :=
  {| Store := nat;
     clock := fun n => 1000 * Z.of_nat n;
     provider := fun n => "token-" ++ string_of_nat n;
     store_read := fun _ _ => read_answer;
     store_write := fun _ s => (write_answer, S s) |}.

Definition scripted_admin (answer : Admin.snapshot) : Admin.Environment :=
  {| Admin.Store := nat;
     Admin.uuid := fun n => "uuid-" ++ string_of_nat n;
     Admin.db_snapshot := fun _ _ => answer;
     Admin.db_apply := fun _ s => S s |}.

(** A clock that reads the given instants in turn, then stays at [0]. *)
Definition clock_of (instants : list Z) : nat -> Z := fun n => nth n instants 0.

Definition timed (instants : list Z) : Environment :=
  {| Store := unit;
     clock := clock_of instants;
     provider := fun n => "token-" ++ string_of_nat n;
     store_read := fun _ _ => VNull;
     store_write := fun _ s => (VNull, s) |}.

Definition sdk : FirebaseSDK.t :=
  FirebaseSDK.new FirebaseSDK.NoStore "https://example.firebaseio.com/".

Definition product : value := VObj [("price", VNum 1)].
Definition negative_product : value := VObj [("price", VNum (-1))].

(** One row [r1] under the table path. *)
Definition one_row : value := VObj [("r1", product)].

End Examples.

(** ** The specification's wording, where a claim is compared with it *)

Module Spec.
Import JS.

(** The rule for one query parameter: a string value is emitted wrapped in
    double quotes, any other value as its JSON encoding. *)
Inductive serialized : value -> string -> Prop :=
| serialized_string (s : string) :
    serialized (VStr s) (dquote ++ s ++ dquote)
| serialized_json (v : value) (j : string) :
    is_string v = false -> JSON_stringify v = Some j -> serialized v j.

End Spec.

(** ** Runs and predicates used by the further properties *)

Module Runs.
Import JS.

(** Every character of [s] satisfies [p]. *)
Fixpoint string_forall (p : ascii -> bool) (s : string) : bool :=
  match s with
  | EmptyString => true
  | String c rest => p c && string_forall p rest
  end.

(** A character that [JSON.stringify] copies as it is. *)
Definition json_plain (c : ascii) : bool :=
  let n := nat_of_ascii c in
  ((32 <=? n) && negb (n =? 34) && negb (n =? 92))%nat.

(** A key made of decimal digits only.  JavaScript lists the keys that are
    array indices, all of which are of this form, before the other keys
    of an object; a key of any other form is listed in insertion order. *)
Definition digits_only (k : string) : bool :=
  negb (k =? EmptyString)%string
  && string_forall (fun c => let n := nat_of_ascii c in ((48 <=? n) && (n <=? 57))%nat) k.

(** A character that may occur in a form-encoded name or value. *)
Definition form_safe (c : ascii) : bool :=
  let n := nat_of_ascii c in
  (FirebaseSDK.form_unreserved n || (n =? 43) || (n =? 37))%nat.

Definition hex_value (c : ascii) : option nat :=
  let n := nat_of_ascii c in
  if ((48 <=? n) && (n <=? 57))%nat then Some (n - 48)%nat
  else if ((65 <=? n) && (n <=? 70))%nat then Some (n - 55)%nat
  else if ((97 <=? n) && (n <=? 102))%nat then Some (n - 87)%nat
  else None.

(** The reader of the [application/x-www-form-urlencoded] byte encoding, as
    the receiving store applies it to a name or a value. *)
Fixpoint form_decode (s : string) : option string :=
  match s with
  | EmptyString => Some EmptyString
  | String c rest =>
      if (nat_of_ascii c =? 43)%nat then
        option_map (String (ascii_of_nat 32)) (form_decode rest)
      else if (nat_of_ascii c =? 37)%nat then
        match rest with
        | String h (String l rest') =>
            match hex_value h, hex_value l, form_decode rest' with
            | Some a, Some b, Some r => Some (String (ascii_of_nat (16 * a + b)) r)
            | _, _, _ => None
            end
        | _ => None
        end
      else option_map (String c) (form_decode rest)
  end.

Section WithEnvironment.
Context {E : Environment}.

(** The world after [n] consecutive [getAccessToken] calls. *)
Fixpoint after_calls (n : nat) (w : FirebaseSDK.world) : FirebaseSDK.world :=
  match n with
  | O => w
  | S k => after_calls k (snd (FirebaseSDK.getAccessToken w))
  end.

End WithEnvironment.

Section WithAdminEnvironment.
Context {A : Admin.Environment}.


End WithAdminEnvironment.

End Runs.

(** ** Further surroundings for the examples *)

Module Surroundings.
Import JS.

(** A provider that has no token to give. *)
Definition tokenless : Environment :=
  {| Store := unit;
     clock := fun n => 1000 * Z.of_nat n;
     provider := fun _ => EmptyString;
     store_read := fun _ _ => VNull;
     store_write := fun _ s => (VNull, s) |}.

(** A store that answers a write with the method-specific answer
    [answers m]. *)
Definition answering (read_answer : value) (answers : http_method -> value)
  : Environment :=
  {| Store := nat;
     clock := fun n => 1000 * Z.of_nat n;
     provider := fun n => "token-" ++ string_of_nat n;
     store_read := fun _ _ => read_answer;
     store_write := fun r s => (answers (method r), S s) |}.

End Surroundings.

(** * Properties *)

Import JS.

(** ** The token cache *)

Section TokenCache.
Context {E : Environment}.
Import FirebaseSDK.

Lemma getAccessToken_run (w : world) :
  getAccessToken w = (Ok (current_token w), with_token w).
Proof.
  unfold getAccessToken, current_token, with_token, stale, bind, Date_now, gets, set_storage,
    auth_getAccessToken, modify, ret.
  cbn [cached ticks auth_calls requests store token expire].
  destruct (negb (truthy (VStr (token (cached w)))) || (expire (cached w) <? clock (ticks w)));
    reflexivity.
Qed.

Lemma truthy_string (s : string) : truthy (VStr s) = false <-> s = EmptyString.
Proof.
  cbn [truthy]. rewrite negb_false_iff. apply String.eqb_eq.
Qed.

Lemma stale_iff (w : world) :
  stale w = true <->
  token (cached w) = EmptyString \/ expire (cached w) < clock (ticks w).
Proof.
  unfold stale. rewrite orb_true_iff, negb_true_iff, truthy_string, Z.ltb_lt. tauto.
Qed.

Lemma with_token_frame (w : world) :
  requests (with_token w) = requests w /\ store (with_token w) = store w /\
  ticks (with_token w) = S (ticks w).
Proof.
  unfold with_token. destruct (stale w); cbn; auto.
Qed.

Lemma with_token_fresh (w : world) :
  clock (ticks w) <= expire (cached (with_token w)).
Proof.
  unfold with_token. destruct (stale w) eqn:Hs; cbn.
  - lia.
  - destruct (stale_iff w) as [_ H].
    destruct (Z.le_gt_cases (clock (ticks w)) (expire (cached w))) as [Hle | Hgt]; auto.
    rewrite H in Hs; [discriminate | right; lia].
Qed.

End TokenCache.

Section TokenCacheClaims.
Context {E : Environment}.
Import FirebaseSDK.

(** C2.  A call of [getAccessToken] that finds no token cached, or finds the
    cached expiry instant passed, requests exactly one token from the auth
    provider, stores it with expiry = call time + 3,300,000 ms, and returns
    it; any other call returns the cached token, leaves the cache as it is
    and does not call the auth provider.  Neither sends a request. *)
Theorem getAccessToken_refreshes_or_reuses (w : world) :
  (token (cached w) = EmptyString \/ expire (cached w) < clock (ticks w) ->
   exists w',
     getAccessToken w = (Ok (provider (auth_calls w)), w') /\
     cached w' = mkStorage (provider (auth_calls w)) (clock (ticks w) + 3300000) /\
     auth_calls w' = S (auth_calls w) /\
     requests w' = requests w /\ store w' = store w) /\
  (token (cached w) <> EmptyString /\ clock (ticks w) <= expire (cached w) ->
   exists w',
     getAccessToken w = (Ok (token (cached w)), w') /\
     cached w' = cached w /\
     auth_calls w' = auth_calls w /\
     requests w' = requests w /\ store w' = store w).
Proof.
  rewrite getAccessToken_run. unfold current_token, with_token.
  split; intros H.
  - apply stale_iff in H. rewrite H. eexists. cbn. repeat split.
  - assert (Hs : stale w = false).
    { destruct (stale w) eqn:Hs; auto. apply stale_iff in Hs. destruct H, Hs; [tauto | lia]. }
    rewrite Hs. eexists. cbn. repeat split.
Qed.

(** C9.  In every run of consecutive [getAccessToken] calls, whatever the
    clock reads, each call returns the token the cache holds when it
    returns, and the expiry instant held for that token is not earlier than
    the instant the call read. *)
Theorem getAccessToken_never_returns_expired (n : nat) (w : world) :
  List.length (token_calls n w) = n /\
  Forall (fun u => returned u = Ok (held_token u) /\ call_time u <= held_expiry u)
         (token_calls n w).
Proof.
  revert w. induction n as [| n IH]; intros w; cbn [token_calls].
  - split; [reflexivity | constructor].
  - rewrite getAccessToken_run.
    destruct (IH (with_token w)) as [Hlen Hall].
    split; [cbn; now rewrite Hlen |].
    constructor; [| exact Hall].
    cbn. split; [reflexivity | apply with_token_fresh].
Qed.

End TokenCacheClaims.

(** The scenario of the specification: a first call at [t0] fetches a
    token, a call at [t0 + 100] reuses it, a call at [t0 + 4000000] fetches
    the second one. *)
Example token_scenario :
  let t0 := 1700000000000 in
  @FirebaseSDK.token_calls (Examples.timed [t0; t0 + 100; t0 + 4000000]) 3
    (FirebaseSDK.initial (E := Examples.timed [t0; t0 + 100; t0 + 4000000]) tt)
  = [ FirebaseSDK.mkUse t0 (Ok "token-0") "token-0" (t0 + 3300000);
      FirebaseSDK.mkUse (t0 + 100) (Ok "token-0") "token-0" (t0 + 3300000);
      FirebaseSDK.mkUse (t0 + 4000000) (Ok "token-1") "token-1" (t0 + 7300000) ].
Proof. reflexivity. Qed.

(** The two cases of C2 on that clock: the empty cache is filled at [t0],
    and the filled cache is reused at [t0 + 100]. *)
Lemma getAccessToken_refreshes_or_reuses_witness :
  let E := Examples.timed [1700000000000; 1700000000100] in
  let w0 := FirebaseSDK.initial (E := E) tt in
  let w1 := FirebaseSDK.with_token w0 in
  (exists w', FirebaseSDK.getAccessToken w0 = (Ok "token-0", w') /\
              FirebaseSDK.cached w' = FirebaseSDK.mkStorage "token-0" 1700003300000 /\
              FirebaseSDK.auth_calls w' = 1%nat /\
              FirebaseSDK.requests w' = [] /\ FirebaseSDK.store w' = tt) /\
  (exists w', FirebaseSDK.getAccessToken w1 = (Ok "token-0", w') /\
              FirebaseSDK.cached w' = FirebaseSDK.cached w1 /\
              FirebaseSDK.auth_calls w' = 1%nat /\
              FirebaseSDK.requests w' = [] /\ FirebaseSDK.store w' = tt).
Proof.
  intros E w0 w1. split.
  - apply (proj1 (getAccessToken_refreshes_or_reuses w0)). left. reflexivity.
  - apply (proj2 (getAccessToken_refreshes_or_reuses w1)).
    split; [discriminate | vm_compute; discriminate].
Defined.

(** ** The transport *)

Section Transport.
Context {E : Environment}.
Import FirebaseSDK.

(** Each public method obtains a token, sends its one request, and returns;
    a read leaves the store as it is. *)
Ltac run_method w :=
  unfold get, orderBy, set, update, push, bind;
  rewrite getAccessToken_run; unfold fetch, ret, throw; cbn;
  let Hr := fresh "Hr" in
  let Hs := fresh "Hs" in
  destruct (with_token_frame w) as (Hr & Hs & _); rewrite Hr, Hs.

Lemma get_run (sdk : t) (path : string) (w : world) :
  let r := get_request sdk path (current_token w) in
  exists w',
    get sdk path w = (Ok (store_read (store w) r), w') /\
    requests w' = (requests w ++ [r])%list /\ store w' = store w.
Proof.
  run_method w. eexists. repeat split.
Qed.

Lemma orderBy_run (sdk : t) (path : string) (query : object) (w : world) :
  let r := orderBy_request sdk path query (current_token w) in
  exists w',
    orderBy sdk path query w = (Ok (store_read (store w) r), w') /\
    requests w' = (requests w ++ [r])%list /\ store w' = store w.
Proof.
  run_method w. eexists. repeat split.
Qed.

Lemma set_run (sdk : t) (path : string) (v : value) (w : world) :
  let r := set_request sdk path v (current_token w) in
  exists w',
    set sdk path v w = (Ok tt, w') /\
    requests w' = (requests w ++ [r])%list /\ store w' = snd (store_write r (store w)).
Proof.
  run_method w.
  destruct (store_write _ (store w)) as [answer s]. eexists. repeat split.
Qed.

Lemma update_run (sdk : t) (path : string) (v : value) (w : world) :
  let r := update_request sdk path v (current_token w) in
  exists w',
    update sdk path v w = (Ok tt, w') /\
    requests w' = (requests w ++ [r])%list /\ store w' = snd (store_write r (store w)).
Proof.
  run_method w.
  destruct (store_write _ (store w)) as [answer s]. eexists. repeat split.
Qed.

Lemma push_run (sdk : t) (path : string) (v : value) (w : world) :
  let r := push_request sdk path v (current_token w) in
  let answer := fst (store_write r (store w)) in
  exists w',
    push sdk path v w =
      (match answer with
       | VNull | VUndefined => Thrown TypeError
       | _ => Ok (get_prop answer "name")
       end, w') /\
    requests w' = (requests w ++ [r])%list /\ store w' = snd (store_write r (store w)).
Proof.
  run_method w.
  destruct (store_write _ (store w)) as [answer s]. cbn.
  destruct answer; eexists; repeat split.
Qed.

Lemma params_set_fresh (name v : string) (p : URLSearchParams) :
  ~ In name (map fst p) -> params_set name v p = (p ++ [(name, v)])%list.
Proof.
  induction p as [| [n old] p IH]; cbn; intros Hn; [reflexivity |].
  destruct (String.eqb_spec name n) as [-> | Hne]; [tauto |].
  rewrite IH; tauto.
Qed.

Lemma query_params_from (query : object) (acc : URLSearchParams) :
  NoDup (map fst acc ++ map fst query)%list ->
  fold_left (fun params kv => params_set (fst kv) (query_value (snd kv)) params) query acc
  = (acc ++ map (fun kv => (fst kv, query_value (snd kv))) query)%list.
Proof.
  revert acc. induction query as [| [k v] query IH]; intros acc Hnd; cbn.
  - now rewrite app_nil_r.
  - rewrite params_set_fresh.
    + rewrite IH.
      * now rewrite <- app_assoc.
      * rewrite map_app. cbn. rewrite <- app_assoc. exact Hnd.
    + cbn in Hnd. apply NoDup_remove_2 in Hnd. intros Hin. apply Hnd.
      apply in_or_app. now left.
Qed.

Lemma query_params_entries (query : object) :
  NoDup (map fst query) ->
  query_params query = map (fun kv => (fst kv, query_value (snd kv))) query.
Proof.
  intros Hnd. unfold query_params. now rewrite query_params_from.
Qed.

Lemma length_append (s1 s2 : string) :
  String.length (s1 ++ s2) = (String.length s1 + String.length s2)%nat.
Proof.
  induction s1 as [| c s1 IH]; cbn; [reflexivity | now rewrite IH].
Qed.

Lemma json_escape_char_nonempty (c : ascii) :
  (1 <= String.length (json_escape_char c))%nat.
Proof.
  unfold json_escape_char.
  repeat match goal with
         | |- context [if ?b then _ else _] => destruct b
         end; cbn; lia.
Qed.

Lemma json_escape_length (s : string) :
  (String.length s <= String.length (json_escape s))%nat.
Proof.
  induction s as [| c s IH]; cbn; [lia |].
  rewrite length_append. pose proof (json_escape_char_nonempty c). lia.
Qed.

(** The JSON encoding of a string is never the string itself. *)
Lemma JSON_stringify_string_differs (s : string) :
  JSON_stringify (VStr s) <> Some s.
Proof.
  change (JSON_stringify (VStr s)) with (Some (json_quote s)).
  intros H. injection H as H.
  apply (f_equal String.length) in H. unfold json_quote in H.
  rewrite !length_append in H. cbn in H.
  pose proof (json_escape_length s). lia.
Qed.

Lemma JSON_stringify_defined (v : value) :
  v <> VUndefined -> exists j, JSON_stringify v = Some j.
Proof.
  destruct v as [| | [|] | | | |]; intros H; try (eexists; reflexivity). congruence.
Qed.

End Transport.

Section TransportClaims.
Context {E : Environment}.
Import FirebaseSDK.

Lemma query_value_serialized (v : value) :
  v <> VUndefined -> Spec.serialized v (query_value v).
Proof.
  intros Hv. destruct (JSON_stringify_defined v Hv) as [j Hj].
  destruct v; try (unfold query_value; rewrite Hj; now constructor).
  constructor.
Qed.

(** C6.  [orderBy] sends one [GET] whose query string is the form encoding
    of one entry per property of the query object, in order and under the
    property's name; the value of the entry is the parameter wrapped in
    double quotes when the parameter is a string, and its JSON encoding
    otherwise.  (The keys of an object are distinct.) *)
Theorem orderBy_query_string (sdk : t) (path : string) (query : object) (w : world) :
  NoDup (map fst query) ->
  exists (entries : URLSearchParams) (r : request) (w' : world),
    orderBy sdk path query w = (Ok (store_read (store w) r), w') /\
    requests w' = (requests w ++ [r])%list /\
    method r = GET /\
    url r = node_url sdk path ++ "?" ++ params_toString entries /\
    map fst entries = map fst query /\
    Forall2 (fun kv e => snd kv <> VUndefined -> Spec.serialized (snd kv) (snd e))
            query entries.
Proof.
  intros Hnd.
  destruct (orderBy_run sdk path query w) as (w' & Hrun & Hreq & _).
  exists (map (fun kv => (fst kv, query_value (snd kv))) query).
  eexists. exists w'. split; [exact Hrun |]. split; [exact Hreq |].
  split; [reflexivity |]. split.
  { cbn. now rewrite query_params_entries. }
  split.
  { rewrite map_map. reflexivity. }
  clear. induction query as [| kv query IH]; constructor; auto.
  cbn. apply query_value_serialized.
Qed.

(** C10.  [set] (PUT) and [update] (PATCH) send a string value as the request
    body verbatim, which is not its JSON encoding, and send the JSON encoding
    of every value that is not a string. *)
Theorem string_body_sent_verbatim (sdk : t) (path : string) (v : value) (w : world) :
  exists (r1 r2 : request) (w1 w2 : world),
    set sdk path v w = (Ok tt, w1) /\
    requests w1 = (requests w ++ [r1])%list /\
    method r1 = PUT /\ url r1 = node_url sdk path /\
    update sdk path v w = (Ok tt, w2) /\
    requests w2 = (requests w ++ [r2])%list /\
    method r2 = PATCH /\ url r2 = node_url sdk path /\
    (forall s, v = VStr s ->
       body r1 = Some s /\ body r2 = Some s /\ JSON_stringify v <> Some s) /\
    (is_string v = false ->
       body r1 = JSON_stringify v /\ body r2 = JSON_stringify v).
Proof.
  destruct (set_run sdk path v w) as (w1 & Hset & Hr1 & _).
  destruct (update_run sdk path v w) as (w2 & Hupd & Hr2 & _).
  do 2 eexists. exists w1, w2.
  split; [exact Hset |]. split; [exact Hr1 |]. do 2 (split; [reflexivity |]).
  split; [exact Hupd |]. split; [exact Hr2 |]. do 2 (split; [reflexivity |]).
  split.
  - intros s ->. cbn. repeat split. apply JSON_stringify_string_differs.
  - intros Hv. destruct v; try discriminate; cbn; auto.
Qed.

End TransportClaims.

(** Numbers, booleans and arrays go out unquoted; a string inside an array
    is part of the array's JSON encoding. *)
Example query_value_examples :
  FirebaseSDK.query_value (VStr "price") = dquote ++ "price" ++ dquote /\
  FirebaseSDK.query_value (VNum 5) = "5" /\
  FirebaseSDK.query_value (VBool true) = "true" /\
  FirebaseSDK.query_value (VArr [VNum 1; VStr "a"]) = "[1," ++ dquote ++ "a" ++ dquote ++ "]".
Proof. repeat split. Qed.

Lemma orderBy_query_string_witness :
  let E := Examples.scripted Examples.one_row VNull in
  let query := Rest.FirebaseTable.child_query "price" (VNum 1) in
  exists (entries : FirebaseSDK.URLSearchParams) (r : request) (w' : FirebaseSDK.world),
    FirebaseSDK.orderBy Examples.sdk "products" query (FirebaseSDK.initial (E := E) O)
      = (Ok (store_read (Environment := E) O r), w') /\
    FirebaseSDK.requests w' = [r] /\
    method r = GET /\
    url r = FirebaseSDK.node_url Examples.sdk "products" ++ "?"
            ++ FirebaseSDK.params_toString entries /\
    map fst entries = ["orderBy"; "equalTo"] /\
    Forall2 (fun kv e => snd kv <> VUndefined -> Spec.serialized (snd kv) (snd e))
            query entries.
Proof.
  intros E query.
  apply (orderBy_query_string (E := E) Examples.sdk "products" query
           (FirebaseSDK.initial (E := E) O)).
  repeat constructor; cbn; intuition discriminate.
Defined.

(** ** Objects *)

Lemma assoc_obj_set (k : string) (x : value) (o : object) :
  assoc k (obj_set k x o) = Some x.
Proof.
  induction o as [| [k' y] o IH]; cbn.
  - now rewrite String.eqb_refl.
  - destruct (String.eqb_spec k k') as [-> | Hne]; cbn.
    + now rewrite String.eqb_refl.
    + destruct (String.eqb_spec k k'); [contradiction | exact IH].
Qed.

(** The row [{ ...v, _id }] carries [_id] under the name [_id]. *)
Lemma spread_with_id_id (v : value) (_id : option string) :
  get_prop (spread_with_id v _id) "_id" = key_value _id.
Proof.
  unfold get_prop, spread_with_id. cbn [own_entries]. now rewrite assoc_obj_set.
Qed.

Lemma spread_with_id_truthy (v : value) (_id : option string) :
  truthy (spread_with_id v _id) = true.
Proof. reflexivity. Qed.

(** The rest of [const { _id, ...data } = v] has no property [_id]. *)
Lemma rest_without_absent (k : string) (v : value) :
  assoc k (rest_without k v) = None.
Proof.
  unfold rest_without. induction (own_entries v) as [| [k' y] o IH]; cbn; [reflexivity |].
  destruct (String.eqb_spec k k') as [-> | Hne]; cbn; [exact IH |].
  destruct (String.eqb_spec k k'); [contradiction | exact IH].
Qed.

Lemma rest_without_keys (k : string) (v : value) :
  ~ In k (map fst (rest_without k v)).
Proof.
  unfold rest_without. intros Hin. apply in_map_iff in Hin as ([k' y] & Hk & Hin).
  apply filter_In in Hin as [_ Hneq]. cbn in Hk, Hneq. subst k'.
  now rewrite String.eqb_refl in Hneq.
Qed.

(** ** The accessors over [FirebaseSDK], operation by operation *)

Section RestAccessors.
Context {E : Environment}.
Import FirebaseSDK.

Lemma collection_set_run (c : Rest.FirebaseCollection.t) (v : value) (w : world) :
  Rest.FirebaseCollection.set c v w =
  match Rest.FirebaseCollection.schema c v with
  | Zod.Parsed data =>
      set (Rest.FirebaseCollection.database c) (Rest.FirebaseCollection.name c) data w
  | Zod.Invalid issues => (Thrown (ZodError issues), w)
  end.
Proof.
  unfold Rest.FirebaseCollection.set, Zod.parse, bind.
  destruct (Rest.FirebaseCollection.schema c v); reflexivity.
Qed.

Lemma table_create_run (tb : Rest.FirebaseTable.t) (v : value) (w : world) :
  Rest.FirebaseTable.create tb v w =
  match Rest.FirebaseTable.schema tb v with
  | Zod.Parsed data =>
      push (Rest.FirebaseTable.database tb) (Rest.FirebaseTable.name tb) data w
  | Zod.Invalid issues => (Thrown (ZodError issues), w)
  end.
Proof.
  unfold Rest.FirebaseTable.create, Zod.parse, bind.
  destruct (Rest.FirebaseTable.schema tb v); reflexivity.
Qed.

Lemma collection_update_run (c : Rest.FirebaseCollection.t) (cb : value -> value)
    (w : world) :
  let db := Rest.FirebaseCollection.database c in
  let name := Rest.FirebaseCollection.name c in
  let g := get_request db name (current_token w) in
  let legacy := store_read (store w) g in
  exists w1,
    Rest.FirebaseCollection.get c w = (Ok legacy, w1) /\
    requests w1 = (requests w ++ [g])%list /\ store w1 = store w /\
    Rest.FirebaseCollection.update c cb w =
      (if truthy legacy then update db name (cb legacy) w1
       else set db name (cb legacy) w1).
Proof.
  intros db name g legacy.
  destruct (get_run db name w) as (w1 & Hget & Hreq & Hst).
  exists w1. unfold Rest.FirebaseCollection.update, Rest.FirebaseCollection.get, bind.
  fold db name. rewrite Hget. fold g legacy.
  repeat split; auto. destruct (truthy legacy); reflexivity.
Qed.

Lemma table_findByChild_run (tb : Rest.FirebaseTable.t) (key : string) (v : value)
    (w : world) :
  let db := Rest.FirebaseTable.database tb in
  let name := Rest.FirebaseTable.name tb in
  let g := orderBy_request db name (Rest.FirebaseTable.child_query key v) (current_token w) in
  let snapshot := store_read (store w) g in
  let legacy :=
    if truthy snapshot then
      spread_with_id (get_prop snapshot (string_or_undefined (first_key snapshot)))
                     (first_key snapshot)
    else VUndefined in
  exists w1,
    Rest.FirebaseTable.findByChild tb key v w = (Ok legacy, w1) /\
    requests w1 = (requests w ++ [g])%list /\ store w1 = store w.
Proof.
  intros db name g snapshot legacy.
  destruct (orderBy_run db name (Rest.FirebaseTable.child_query key v) w)
    as (w1 & Hget & Hreq & Hst).
  exists w1. unfold Rest.FirebaseTable.findByChild, bind, ret.
  fold db name. rewrite Hget. repeat split; auto.
Qed.

Lemma table_findById_run (tb : Rest.FirebaseTable.t) (id : string) (w : world) :
  let db := Rest.FirebaseTable.database tb in
  let g := get_request db (Rest.FirebaseTable.row_path tb id) (current_token w) in
  let response := store_read (store w) g in
  let legacy := if truthy response then response else VUndefined in
  exists w1,
    Rest.FirebaseTable.findById tb id w = (Ok legacy, w1) /\
    requests w1 = (requests w ++ [g])%list /\ store w1 = store w.
Proof.
  intros db g response legacy.
  destruct (get_run db (Rest.FirebaseTable.row_path tb id) w) as (w1 & Hget & Hreq & Hst).
  exists w1. unfold Rest.FirebaseTable.findById, bind, ret.
  fold db. rewrite Hget. repeat split; auto.
Qed.

Lemma table_transitionByChild_after (tb : Rest.FirebaseTable.t) (key : string)
    (v : value) (fu : value -> value) (w w1 : world) (legacy : value) :
  Rest.FirebaseTable.findByChild tb key v w = (Ok legacy, w1) ->
  Rest.FirebaseTable.transitionByChild tb key v fu w =
    (if truthy legacy && truthy (fu legacy) then
       update (Rest.FirebaseTable.database tb)
              (Rest.FirebaseTable.row_path tb (to_string (get_prop (fu legacy) "_id")))
              (VObj (rest_without "_id" (fu legacy))) w1
     else (Ok tt, w1)).
Proof.
  intros Hfind. unfold Rest.FirebaseTable.transitionByChild, bind. rewrite Hfind.
  destruct (truthy legacy); [destruct (truthy (fu legacy)) |]; reflexivity.
Qed.

Lemma table_transitionById_after (tb : Rest.FirebaseTable.t) (id : string)
    (fu : value -> value) (w w1 : world) (legacy : value) :
  Rest.FirebaseTable.findById tb id w = (Ok legacy, w1) ->
  Rest.FirebaseTable.transitionById tb id fu w =
    (if truthy legacy && truthy (fu legacy) then
       update (Rest.FirebaseTable.database tb) (Rest.FirebaseTable.row_path tb id)
              (fu legacy) w1
     else (Ok tt, w1)).
Proof.
  intros Hfind. unfold Rest.FirebaseTable.transitionById, bind. rewrite Hfind.
  destruct (truthy legacy); [destruct (truthy (fu legacy)) |]; reflexivity.
Qed.

End RestAccessors.

(** ** The accessors over [firebase-admin], operation by operation *)

Section AdminAccessors.
Context {A : Admin.Environment}.
Import Admin.

Lemma admin_set_run (c : FirebaseCollection.t) (v : value) (w : world) :
  FirebaseCollection.set c v w =
  match FirebaseCollection.schema c v with
  | Zod.Parsed data =>
      let op := RefSet (FirebaseCollection.name c) data in
      (Ok tt, mkWorld (calls w ++ [Write op]) (uuid_calls w) (db_apply op (store w)))
  | Zod.Invalid issues => (Thrown (ZodError issues), w)
  end.
Proof.
  unfold FirebaseCollection.set, Zod.parse, bind.
  destruct (FirebaseCollection.schema c v); reflexivity.
Qed.

Lemma admin_create_run (tb : FirebaseTable.t) (v : value) (w : world) :
  FirebaseTable.create tb v w =
  match FirebaseTable.schema tb v with
  | Zod.Parsed data =>
      let id := uuid (uuid_calls w) in
      let op := RefSet (FirebaseTable.row_path tb id) data in
      (Ok id, mkWorld (calls w ++ [Write op]) (S (uuid_calls w)) (db_apply op (store w)))
  | Zod.Invalid issues => (Thrown (ZodError issues), w)
  end.
Proof.
  unfold FirebaseTable.create, Zod.parse, bind.
  destruct (FirebaseTable.schema tb v); reflexivity.
Qed.

Lemma admin_update_run (c : FirebaseCollection.t) (cb : value -> value) (w : world) :
  let name := FirebaseCollection.name c in
  let legacy := val_or_undefined (db_snapshot (store w) (RefGet name)) in
  let op := if truthy legacy then RefUpdate name (cb legacy) else RefSet name (cb legacy) in
  FirebaseCollection.get c w =
    (Ok legacy, mkWorld (calls w ++ [Read (RefGet name)]) (uuid_calls w) (store w)) /\
  FirebaseCollection.update c cb w =
    (Ok tt, mkWorld ((calls w ++ [Read (RefGet name)]) ++ [Write op]) (uuid_calls w)
                    (db_apply op (store w))).
Proof.
  intros name legacy op. split; [reflexivity |].
  unfold FirebaseCollection.update, FirebaseCollection.get, bind, read, ret.
  fold name legacy. subst op. destruct (truthy legacy); reflexivity.
Qed.

Lemma admin_findByChild_run (tb : FirebaseTable.t) (key : string) (v : value)
    (w : world) :
  let q := QueryGet (FirebaseTable.name tb) key v in
  let snapshot := db_snapshot (store w) q in
  let legacy :=
    if snapshot_exists snapshot then
      spread_with_id
        (get_prop (snapshot_val snapshot)
                  (string_or_undefined (first_key (snapshot_val snapshot))))
        (first_key (snapshot_val snapshot))
    else VUndefined in
  FirebaseTable.findByChild tb key v w =
    (Ok legacy, mkWorld (calls w ++ [Read q]) (uuid_calls w) (store w)).
Proof. reflexivity. Qed.

Lemma admin_findById_run (tb : FirebaseTable.t) (id : string) (w : world) :
  let q := RefGet (FirebaseTable.row_path tb id) in
  FirebaseTable.findById tb id w =
    (Ok (val_or_undefined (db_snapshot (store w) q)),
     mkWorld (calls w ++ [Read q]) (uuid_calls w) (store w)).
Proof. reflexivity. Qed.

Lemma admin_transitionByChild_after (tb : FirebaseTable.t) (key : string) (v : value)
    (fu : value -> value) (w w1 : world) (legacy : value) :
  FirebaseTable.findByChild tb key v w = (Ok legacy, w1) ->
  FirebaseTable.transitionByChild tb key v fu w =
    (if truthy legacy && truthy (fu legacy) then
       write (RefUpdate (FirebaseTable.row_path tb (to_string (get_prop (fu legacy) "_id")))
                        (VObj (rest_without "_id" (fu legacy)))) w1
     else (Ok tt, w1)).
Proof.
  intros Hfind. unfold FirebaseTable.transitionByChild, bind. rewrite Hfind.
  destruct (truthy legacy); [destruct (truthy (fu legacy)) |]; reflexivity.
Qed.

Lemma admin_transitionById_after (tb : FirebaseTable.t) (id : string)
    (fu : value -> value) (w w1 : world) (legacy : value) :
  FirebaseTable.findById tb id w = (Ok legacy, w1) ->
  FirebaseTable.transitionById tb id fu w =
    (if truthy legacy && truthy (fu legacy) then
       write (RefUpdate (FirebaseTable.row_path tb id) (fu legacy)) w1
     else (Ok tt, w1)).
Proof.
  intros Hfind. unfold FirebaseTable.transitionById, bind. rewrite Hfind.
  destruct (truthy legacy); [destruct (truthy (fu legacy)) |]; reflexivity.
Qed.

End AdminAccessors.

(** ** The accessor layer: what the specification says of it *)

Section AccessorClaims.
Context {E : Environment} {A : Admin.Environment}.

(** C3.  [update] reads the current value and calls the callback with it:
    with the store's answer over REST; over [firebase-admin] with the
    snapshot's value when the snapshot exists and with [undefined] when it
    does not.  When the value read is a document, the one request that
    follows is the merge (PATCH, [ref.update]) of the callback's result at
    the bound path; when nothing is stored there ([null] from the REST
    store, a snapshot that does not exist in [firebase-admin]), it is the
    full write (PUT, [ref.set]) of the callback's result at the bound
    path. *)
Theorem update_merges_or_writes (cb : value -> value) :
  (forall (c : Rest.FirebaseCollection.t) (w : FirebaseSDK.world),
     let db := Rest.FirebaseCollection.database c in
     let name := Rest.FirebaseCollection.name c in
     exists legacy w1 w2 g r,
       Rest.FirebaseCollection.get c w = (Ok legacy, w1) /\
       FirebaseSDK.requests w1 = (FirebaseSDK.requests w ++ [g])%list /\
       g = FirebaseSDK.get_request db name (FirebaseSDK.current_token w) /\
       legacy = store_read (FirebaseSDK.store w) g /\
       Rest.FirebaseCollection.update c cb w = (Ok tt, w2) /\
       FirebaseSDK.requests w2 = (FirebaseSDK.requests w1 ++ [r])%list /\
       (forall doc, legacy = VObj doc ->
          r = FirebaseSDK.update_request db name (cb legacy) (FirebaseSDK.current_token w1)) /\
       (legacy = VNull ->
          r = FirebaseSDK.set_request db name (cb legacy) (FirebaseSDK.current_token w1))) /\
  (forall (c : Admin.FirebaseCollection.t) (w : Admin.world),
     let name := Admin.FirebaseCollection.name c in
     exists legacy w1 w2,
       Admin.FirebaseCollection.get c w = (Ok legacy, w1) /\
       Admin.calls w1 = (Admin.calls w ++ [Admin.Read (Admin.RefGet name)])%list /\
       legacy = Admin.val_or_undefined
                  (Admin.db_snapshot (Admin.store w) (Admin.RefGet name)) /\
       (Admin.snapshot_exists (Admin.db_snapshot (Admin.store w) (Admin.RefGet name)) = true ->
        legacy = Admin.snapshot_val (Admin.db_snapshot (Admin.store w) (Admin.RefGet name))) /\
       (Admin.snapshot_exists (Admin.db_snapshot (Admin.store w) (Admin.RefGet name)) = false ->
        legacy = VUndefined) /\
       Admin.FirebaseCollection.update c cb w = (Ok tt, w2) /\
       (forall doc, legacy = VObj doc ->
          Admin.calls w2 =
            (Admin.calls w1 ++ [Admin.Write (Admin.RefUpdate name (cb legacy))])%list) /\
       (legacy = VUndefined ->
          Admin.calls w2 =
            (Admin.calls w1 ++ [Admin.Write (Admin.RefSet name (cb legacy))])%list)).
Proof.
  split.
  - intros c w db name.
    destruct (collection_update_run c cb w) as (w1 & Hget & Hreq & _ & Hupd).
    fold db name in Hget, Hreq, Hupd.
    set (legacy := store_read (FirebaseSDK.store w)
                     (FirebaseSDK.get_request db name (FirebaseSDK.current_token w))) in *.
    destruct (truthy legacy) eqn:Ht.
    + destruct (update_run db name (cb legacy) w1) as (w2 & Hrun & Hreq2 & _).
      exists legacy, w1, w2. do 2 eexists.
      split; [exact Hget |]. split; [exact Hreq |]. do 2 (split; [reflexivity |]).
      split; [now rewrite Hupd |]. split; [exact Hreq2 |].
      split; [reflexivity |]. intros Hnull. rewrite Hnull in Ht. discriminate.
    + destruct (set_run db name (cb legacy) w1) as (w2 & Hrun & Hreq2 & _).
      exists legacy, w1, w2. do 2 eexists.
      split; [exact Hget |]. split; [exact Hreq |]. do 2 (split; [reflexivity |]).
      split; [now rewrite Hupd |]. split; [exact Hreq2 |].
      split; [| reflexivity]. intros doc Hdoc. rewrite Hdoc in Ht. discriminate.
  - intros c w name.
    destruct (admin_update_run c cb w) as [Hget Hupd]. fold name in Hget, Hupd.
    do 3 eexists. split; [exact Hget |]. do 2 (split; [reflexivity |]).
    split; [intros Hex; unfold Admin.val_or_undefined; now rewrite Hex |].
    split; [intros Hex; unfold Admin.val_or_undefined; now rewrite Hex |].
    split; [exact Hupd |]. cbn [Admin.calls].
    split.
    + intros doc Hdoc. rewrite Hdoc. reflexivity.
    + intros Hund. rewrite Hund. reflexivity.
Qed.

(** C5.  [set] with a value the bound schema rejects raises the schema's
    error and leaves the world as it found it: no token is requested, no
    request or database call is made, the store is unchanged. *)
Theorem set_invalid_raises_before_transport (s : Zod.schema) (v : value)
    (issues : list string) :
  s v = Zod.Invalid issues ->
  (forall (db : FirebaseSDK.t) (name : string) (w : FirebaseSDK.world),
     Rest.FirebaseCollection.set (Rest.FirebaseCollection.mk db s name) v w
     = (Thrown (ZodError issues), w)) /\
  (forall (name : string) (w : Admin.world),
     Admin.FirebaseCollection.set (Admin.FirebaseCollection.mk s name) v w
     = (Thrown (ZodError issues), w)).
Proof.
  intros Hbad. split.
  - intros db name w. rewrite collection_set_run. cbn. now rewrite Hbad.
  - intros name w. rewrite admin_set_run. cbn. now rewrite Hbad.
Qed.

(** C7.  [create] on a value the schema accepts persists the parsed document
    under the table path joined with a row id and returns that id.  Over
    [firebase-admin] the id is the [uuid] it draws and the write is
    [ref( path/id ).set( data )]; over the REST transport the write is the one
    POST of the parsed document on the table path, and the id is the [name]
    under which the store answers that it has stored it. *)
Theorem create_returns_persisted_id (s : Zod.schema) (v data : value) :
  s v = Zod.Parsed data ->
  (forall (name : string) (w : Admin.world),
     let id := Admin.uuid (Admin.uuid_calls w) in
     let op := Admin.RefSet (name ++ "/" ++ id) data in
     exists w',
       Admin.FirebaseTable.create (Admin.FirebaseTable.mk s name) v w = (Ok id, w') /\
       Admin.calls w' = (Admin.calls w ++ [Admin.Write op])%list /\
       Admin.store w' = Admin.db_apply op (Admin.store w)) /\
  (forall (db : FirebaseSDK.t) (name : string) (w : FirebaseSDK.world) (id : string),
     let r := FirebaseSDK.push_request db name data (FirebaseSDK.current_token w) in
     get_prop (fst (store_write r (FirebaseSDK.store w))) "name" = VStr id ->
     exists w',
       Rest.FirebaseTable.create (Rest.FirebaseTable.mk db s name) v w = (Ok (VStr id), w') /\
       FirebaseSDK.requests w' = (FirebaseSDK.requests w ++ [r])%list /\
       method r = POST /\ url r = FirebaseSDK.node_url db name /\
       body r = JSON_stringify data /\
       FirebaseSDK.store w' = snd (store_write r (FirebaseSDK.store w))).
Proof.
  intros Hok. split.
  - intros name w id op. rewrite admin_create_run. cbn. rewrite Hok.
    eexists. repeat split.
  - intros db name w id r Hname. rewrite table_create_run. cbn. rewrite Hok.
    destruct (push_run db name data w) as (w' & Hrun & Hreq & Hst).
    fold r in Hrun, Hreq, Hst. exists w'.
    split; [| repeat split; assumption].
    rewrite Hrun. rewrite Hname.
    destruct (fst (store_write r (FirebaseSDK.store w))); try reflexivity; discriminate.
Qed.

(** X20.  [transitionByChild] and [transitionById] look the row up with one
    read, which leaves the store as it is; the lookup yields no row when the
    store has nothing to answer ([null] over REST, a snapshot that does not
    exist over [firebase-admin]).  When the lookup yields no row, or the
    updater's result for the row found is falsy ([false], [undefined],
    nothing returned), the call returns normally in the world the lookup
    left: nothing is written and nothing is raised. *)
Theorem transition_declined_is_noop (fu : value -> value) :
  (forall (tb : Rest.FirebaseTable.t) (key : string) (v : value) (w : FirebaseSDK.world),
     let g := FirebaseSDK.orderBy_request (Rest.FirebaseTable.database tb)
                (Rest.FirebaseTable.name tb) (Rest.FirebaseTable.child_query key v)
                (FirebaseSDK.current_token w) in
     exists legacy w1,
       Rest.FirebaseTable.findByChild tb key v w = (Ok legacy, w1) /\
       FirebaseSDK.requests w1 = (FirebaseSDK.requests w ++ [g])%list /\ method g = GET /\
       FirebaseSDK.store w1 = FirebaseSDK.store w /\
       (store_read (FirebaseSDK.store w) g = VNull -> legacy = VUndefined) /\
       (truthy legacy = false \/ truthy (fu legacy) = false ->
        Rest.FirebaseTable.transitionByChild tb key v fu w = (Ok tt, w1))) /\
  (forall (tb : Rest.FirebaseTable.t) (id : string) (w : FirebaseSDK.world),
     let g := FirebaseSDK.get_request (Rest.FirebaseTable.database tb)
                (Rest.FirebaseTable.row_path tb id) (FirebaseSDK.current_token w) in
     exists legacy w1,
       Rest.FirebaseTable.findById tb id w = (Ok legacy, w1) /\
       FirebaseSDK.requests w1 = (FirebaseSDK.requests w ++ [g])%list /\ method g = GET /\
       FirebaseSDK.store w1 = FirebaseSDK.store w /\
       (store_read (FirebaseSDK.store w) g = VNull -> legacy = VUndefined) /\
       (truthy legacy = false \/ truthy (fu legacy) = false ->
        Rest.FirebaseTable.transitionById tb id fu w = (Ok tt, w1))) /\
  (forall (tb : Admin.FirebaseTable.t) (key : string) (v : value) (w : Admin.world),
     let q := Admin.QueryGet (Admin.FirebaseTable.name tb) key v in
     exists legacy w1,
       Admin.FirebaseTable.findByChild tb key v w = (Ok legacy, w1) /\
       Admin.calls w1 = (Admin.calls w ++ [Admin.Read q])%list /\
       Admin.store w1 = Admin.store w /\
       (Admin.snapshot_exists (Admin.db_snapshot (Admin.store w) q) = false ->
        legacy = VUndefined) /\
       (truthy legacy = false \/ truthy (fu legacy) = false ->
        Admin.FirebaseTable.transitionByChild tb key v fu w = (Ok tt, w1))) /\
  (forall (tb : Admin.FirebaseTable.t) (id : string) (w : Admin.world),
     let q := Admin.RefGet (Admin.FirebaseTable.row_path tb id) in
     exists legacy w1,
       Admin.FirebaseTable.findById tb id w = (Ok legacy, w1) /\
       Admin.calls w1 = (Admin.calls w ++ [Admin.Read q])%list /\
       Admin.store w1 = Admin.store w /\
       (Admin.snapshot_exists (Admin.db_snapshot (Admin.store w) q) = false ->
        legacy = VUndefined) /\
       (truthy legacy = false \/ truthy (fu legacy) = false ->
        Admin.FirebaseTable.transitionById tb id fu w = (Ok tt, w1))).
Proof.
  assert (Hoff : forall a b, a = false \/ b = false -> a && b = false).
  { intros a b [-> | ->]; [reflexivity | apply andb_false_r]. }
  repeat split.
  - intros tb key v w g.
    destruct (table_findByChild_run tb key v w) as (w1 & Hfind & Hreq & Hst).
    fold g in Hfind, Hreq.
    do 2 eexists. split; [exact Hfind |]. split; [exact Hreq |].
    split; [reflexivity |]. split; [exact Hst |]. split.
    + intros Hnull. now rewrite Hnull.
    + intros Hno. rewrite (table_transitionByChild_after _ _ _ _ _ _ _ Hfind).
      now rewrite (Hoff _ _ Hno).
  - intros tb id w g.
    destruct (table_findById_run tb id w) as (w1 & Hfind & Hreq & Hst).
    fold g in Hfind, Hreq.
    do 2 eexists. split; [exact Hfind |]. split; [exact Hreq |].
    split; [reflexivity |]. split; [exact Hst |]. split.
    + intros Hnull. now rewrite Hnull.
    + intros Hno. rewrite (table_transitionById_after _ _ _ _ _ _ Hfind).
      now rewrite (Hoff _ _ Hno).
  - intros tb key v w q. pose proof (admin_findByChild_run tb key v w) as Hfind.
    cbv zeta in Hfind. fold q in Hfind.
    do 2 eexists. split; [exact Hfind |]. split; [reflexivity |]. split; [reflexivity |].
    split.
    + intros Hnone. now rewrite Hnone.
    + intros Hno. rewrite (admin_transitionByChild_after _ _ _ _ _ _ _ Hfind).
      now rewrite (Hoff _ _ Hno).
  - intros tb id w q. pose proof (admin_findById_run tb id w) as Hfind.
    cbv zeta in Hfind. fold q in Hfind.
    do 2 eexists. split; [exact Hfind |]. split; [reflexivity |]. split; [reflexivity |].
    split.
    + intros Hnone. unfold Admin.val_or_undefined. now rewrite Hnone.
    + intros Hno. rewrite (admin_transitionById_after _ _ _ _ _ _ Hfind).
      now rewrite (Hoff _ _ Hno).
Qed.

End AccessorClaims.

(** ** Witnesses on the example surroundings *)

Lemma set_invalid_raises_before_transport_witness :
  let E := Examples.scripted VNull VNull in
  let A := Examples.scripted_admin (Admin.mkSnapshot false VNull) in
  Examples.price_schema Examples.negative_product = Zod.Invalid ["price: too small"] /\
  (forall (db : FirebaseSDK.t) (name : string) (w : FirebaseSDK.world),
     Rest.FirebaseCollection.set
       (Rest.FirebaseCollection.mk db Examples.price_schema name)
       Examples.negative_product w
     = (Thrown (ZodError ["price: too small"]), w)) /\
  (forall (name : string) (w : Admin.world),
     Admin.FirebaseCollection.set
       (Admin.FirebaseCollection.mk Examples.price_schema name)
       Examples.negative_product w
     = (Thrown (ZodError ["price: too small"]), w)).
Proof.
  intros E A. split; [reflexivity |].
  apply (set_invalid_raises_before_transport (E := E) (A := A)
           Examples.price_schema Examples.negative_product ["price: too small"]).
  reflexivity.
Defined.

Lemma create_returns_persisted_id_witness :
  let E := Examples.scripted VNull (VObj [("name", VStr "r1")]) in
  let A := Examples.scripted_admin (Admin.mkSnapshot false VNull) in
  let v := VObj [("price", VNum 1); ("note", VStr "extra")] in
  Examples.price_schema v = Zod.Parsed Examples.product /\
  (exists w',
     Admin.FirebaseTable.create (Admin.FirebaseTable.mk Examples.price_schema "products") v
       (Admin.initial (E := A) O) = (Ok "uuid-0", w') /\
     Admin.calls w' = [Admin.Write (Admin.RefSet "products/uuid-0" Examples.product)]) /\
  (exists w',
     Rest.FirebaseTable.create
       (Rest.FirebaseTable.mk Examples.sdk Examples.price_schema "products") v
       (FirebaseSDK.initial (E := E) O) = (Ok (VStr "r1"), w') /\
     map url (FirebaseSDK.requests w') = ["https://example.firebaseio.com/products.json"] /\
     map body (FirebaseSDK.requests w') = [JSON_stringify Examples.product]).
Proof.
  intros E A v.
  assert (Hok : Examples.price_schema v = Zod.Parsed Examples.product) by reflexivity.
  split; [exact Hok |].
  destruct (create_returns_persisted_id (E := E) (A := A) _ _ _ Hok) as [Hadmin Hrest].
  split.
  - destruct (Hadmin "products" (Admin.initial (E := A) O)) as (w' & Hrun & Hcalls & _).
    exists w'. split; [exact Hrun | exact Hcalls].
  - destruct (Hrest Examples.sdk "products" (FirebaseSDK.initial (E := E) O) "r1")
      as (w' & Hrun & Hreq & _); [reflexivity |].
    exists w'. split; [exact Hrun |]. rewrite Hreq. split; reflexivity.
Defined.

(** ** Where the code departs from the specification's wording *)

Section AccessorAmendments.
Context {E : Environment} {A : Admin.Environment}.

(** C4, as the code has it.  When [transitionByChild] finds a row and the
    updater's result for it is truthy, exactly one merge follows the lookup.
    Its target is the table path joined with the [_id] property of the
    updater's result, which is the found row's id whenever the updater hands
    that property back unchanged; the merged value is the updater's result
    without its [_id] property. *)
Theorem transitionByChild_merges_at_returned_id (fu : value -> value) :
  (forall (tb : Rest.FirebaseTable.t) (key : string) (v : value) (w : FirebaseSDK.world),
     let db := Rest.FirebaseTable.database tb in
     exists legacy w1 g,
       Rest.FirebaseTable.findByChild tb key v w = (Ok legacy, w1) /\
       FirebaseSDK.requests w1 = (FirebaseSDK.requests w ++ [g])%list /\ method g = GET /\
       (truthy legacy = true -> truthy (fu legacy) = true ->
        exists w2 r,
          Rest.FirebaseTable.transitionByChild tb key v fu w = (Ok tt, w2) /\
          FirebaseSDK.requests w2 = (FirebaseSDK.requests w1 ++ [r])%list /\
          method r = PATCH /\
          url r = FirebaseSDK.node_url db
                    (Rest.FirebaseTable.row_path tb (to_string (get_prop (fu legacy) "_id"))) /\
          body r = JSON_stringify (VObj (rest_without "_id" (fu legacy))) /\
          ~ In "_id" (map fst (rest_without "_id" (fu legacy))) /\
          (forall i, get_prop legacy "_id" = VStr i -> get_prop (fu legacy) "_id" = VStr i ->
                     url r = FirebaseSDK.node_url db (Rest.FirebaseTable.row_path tb i)))) /\
  (forall (tb : Admin.FirebaseTable.t) (key : string) (v : value) (w : Admin.world),
     exists legacy w1 q,
       Admin.FirebaseTable.findByChild tb key v w = (Ok legacy, w1) /\
       Admin.calls w1 = (Admin.calls w ++ [Admin.Read q])%list /\
       (truthy legacy = true -> truthy (fu legacy) = true ->
        exists w2 path data,
          Admin.FirebaseTable.transitionByChild tb key v fu w = (Ok tt, w2) /\
          Admin.calls w2 = (Admin.calls w1 ++ [Admin.Write (Admin.RefUpdate path data)])%list /\
          path = Admin.FirebaseTable.row_path tb (to_string (get_prop (fu legacy) "_id")) /\
          data = VObj (rest_without "_id" (fu legacy)) /\
          ~ In "_id" (map fst (rest_without "_id" (fu legacy))) /\
          (forall i, get_prop legacy "_id" = VStr i -> get_prop (fu legacy) "_id" = VStr i ->
                     path = Admin.FirebaseTable.row_path tb i))).
Proof.
  split.
  - intros tb key v w db.
    destruct (table_findByChild_run tb key v w) as (w1 & Hfind & Hreq & _).
    do 3 eexists. split; [exact Hfind |]. split; [exact Hreq |]. split; [reflexivity |].
    intros Hrow Hupd. rewrite (table_transitionByChild_after _ _ _ _ _ _ _ Hfind).
    rewrite Hrow, Hupd. cbn [andb].
    match goal with
    | |- context [FirebaseSDK.update ?d ?p ?x w1] =>
        destruct (update_run d p x w1) as (w2 & Hrun & Hreq2 & _)
    end.
    exists w2. eexists. split; [exact Hrun |]. split; [exact Hreq2 |].
    repeat split.
    + apply rest_without_keys.
    + intros i _ Hsame. cbn. now rewrite Hsame.
  - intros tb key v w. pose proof (admin_findByChild_run tb key v w) as Hfind.
    cbv zeta in Hfind.
    do 3 eexists. split; [exact Hfind |]. split; [reflexivity |].
    intros Hrow Hupd. rewrite (admin_transitionByChild_after _ _ _ _ _ _ _ Hfind).
    rewrite Hrow, Hupd. cbn [andb].
    do 3 eexists. split; [reflexivity |]. split; [reflexivity |].
    repeat split.
    + apply rest_without_keys.
    + intros i _ Hsame. now rewrite Hsame.
Qed.

(** C1, as the code has it.  [set] and [create] hand to the transport the
    value that the bound schema's [parse] returned for their argument, and
    nothing when [parse] rejects the argument.  [update], [transitionByChild]
    and [transitionById] never consult the bound schema: whatever the
    schema, the callback's result (without its [_id] property in
    [transitionByChild]) is what the write that follows the read carries,
    and they run the same under any two schemas. *)
Theorem set_and_create_validate_callbacks_do_not :
  (forall (c : Rest.FirebaseCollection.t) (v : value) (w : FirebaseSDK.world),
     let db := Rest.FirebaseCollection.database c in
     let name := Rest.FirebaseCollection.name c in
     match Rest.FirebaseCollection.schema c v with
     | Zod.Parsed data =>
         exists w',
           Rest.FirebaseCollection.set c v w = (Ok tt, w') /\
           FirebaseSDK.requests w' =
             (FirebaseSDK.requests w ++
              [FirebaseSDK.set_request db name data (FirebaseSDK.current_token w)])%list
     | Zod.Invalid issues =>
         Rest.FirebaseCollection.set c v w = (Thrown (ZodError issues), w)
     end) /\
  (forall (tb : Rest.FirebaseTable.t) (v : value) (w : FirebaseSDK.world),
     let db := Rest.FirebaseTable.database tb in
     let name := Rest.FirebaseTable.name tb in
     match Rest.FirebaseTable.schema tb v with
     | Zod.Parsed data =>
         Rest.FirebaseTable.create tb v w = FirebaseSDK.push db name data w /\
         FirebaseSDK.requests (snd (Rest.FirebaseTable.create tb v w)) =
           (FirebaseSDK.requests w ++
            [FirebaseSDK.push_request db name data (FirebaseSDK.current_token w)])%list
     | Zod.Invalid issues =>
         Rest.FirebaseTable.create tb v w = (Thrown (ZodError issues), w)
     end) /\
  (forall (c : Admin.FirebaseCollection.t) (v : value) (w : Admin.world),
     match Admin.FirebaseCollection.schema c v with
     | Zod.Parsed data =>
         exists w',
           Admin.FirebaseCollection.set c v w = (Ok tt, w') /\
           Admin.calls w' =
             (Admin.calls w ++
              [Admin.Write (Admin.RefSet (Admin.FirebaseCollection.name c) data)])%list
     | Zod.Invalid issues =>
         Admin.FirebaseCollection.set c v w = (Thrown (ZodError issues), w)
     end) /\
  (forall (tb : Admin.FirebaseTable.t) (v : value) (w : Admin.world),
     match Admin.FirebaseTable.schema tb v with
     | Zod.Parsed data =>
         let id := Admin.uuid (Admin.uuid_calls w) in
         exists w',
           Admin.FirebaseTable.create tb v w = (Ok id, w') /\
           Admin.calls w' =
             (Admin.calls w ++
              [Admin.Write (Admin.RefSet (Admin.FirebaseTable.name tb ++ "/" ++ id) data)])%list
     | Zod.Invalid issues =>
         Admin.FirebaseTable.create tb v w = (Thrown (ZodError issues), w)
     end) /\
  (forall (c : Rest.FirebaseCollection.t) (cb : value -> value) (w : FirebaseSDK.world),
     let db := Rest.FirebaseCollection.database c in
     let name := Rest.FirebaseCollection.name c in
     let g := FirebaseSDK.get_request db name (FirebaseSDK.current_token w) in
     let legacy := store_read (FirebaseSDK.store w) g in
     exists w1 w2,
       snd (Rest.FirebaseCollection.get c w) = w1 /\
       Rest.FirebaseCollection.update c cb w = (Ok tt, w2) /\
       FirebaseSDK.requests w2 =
         (FirebaseSDK.requests w ++
          [g; if truthy legacy
              then FirebaseSDK.update_request db name (cb legacy)
                     (FirebaseSDK.current_token w1)
              else FirebaseSDK.set_request db name (cb legacy)
                     (FirebaseSDK.current_token w1)])%list) /\
  (forall (tb : Rest.FirebaseTable.t) (key : string) (v : value) (fu : value -> value)
          (w : FirebaseSDK.world),
     exists legacy w1,
       Rest.FirebaseTable.findByChild tb key v w = (Ok legacy, w1) /\
       (truthy legacy = true -> truthy (fu legacy) = true ->
        exists w2,
          Rest.FirebaseTable.transitionByChild tb key v fu w = (Ok tt, w2) /\
          FirebaseSDK.requests w2 =
            (FirebaseSDK.requests w1 ++
             [FirebaseSDK.update_request (Rest.FirebaseTable.database tb)
                (Rest.FirebaseTable.name tb ++ "/" ++ to_string (get_prop (fu legacy) "_id"))
                (VObj (rest_without "_id" (fu legacy)))
                (FirebaseSDK.current_token w1)])%list)) /\
  (forall (tb : Rest.FirebaseTable.t) (id : string) (fu : value -> value)
          (w : FirebaseSDK.world),
     exists legacy w1,
       Rest.FirebaseTable.findById tb id w = (Ok legacy, w1) /\
       (truthy legacy = true -> truthy (fu legacy) = true ->
        exists w2,
          Rest.FirebaseTable.transitionById tb id fu w = (Ok tt, w2) /\
          FirebaseSDK.requests w2 =
            (FirebaseSDK.requests w1 ++
             [FirebaseSDK.update_request (Rest.FirebaseTable.database tb)
                (Rest.FirebaseTable.name tb ++ "/" ++ id) (fu legacy)
                (FirebaseSDK.current_token w1)])%list)) /\
  (forall (c : Admin.FirebaseCollection.t) (cb : value -> value) (w : Admin.world),
     let name := Admin.FirebaseCollection.name c in
     let s := Admin.db_snapshot (Admin.store w) (Admin.RefGet name) in
     let legacy := if Admin.snapshot_exists s then Admin.snapshot_val s else VUndefined in
     exists w2,
       Admin.FirebaseCollection.update c cb w = (Ok tt, w2) /\
       Admin.calls w2 =
         (Admin.calls w ++
          [Admin.Read (Admin.RefGet name);
           Admin.Write (if truthy legacy then Admin.RefUpdate name (cb legacy)
                        else Admin.RefSet name (cb legacy))])%list) /\
  (forall (tb : Admin.FirebaseTable.t) (key : string) (v : value) (fu : value -> value)
          (w : Admin.world),
     exists legacy w1,
       Admin.FirebaseTable.findByChild tb key v w = (Ok legacy, w1) /\
       (truthy legacy = true -> truthy (fu legacy) = true ->
        exists w2,
          Admin.FirebaseTable.transitionByChild tb key v fu w = (Ok tt, w2) /\
          Admin.calls w2 =
            (Admin.calls w1 ++
             [Admin.Write
                (Admin.RefUpdate
                   (Admin.FirebaseTable.name tb ++ "/" ++ to_string (get_prop (fu legacy) "_id"))
                   (VObj (rest_without "_id" (fu legacy))))])%list)) /\
  (forall (tb : Admin.FirebaseTable.t) (id : string) (fu : value -> value) (w : Admin.world),
     let s := Admin.db_snapshot (Admin.store w)
                (Admin.RefGet (Admin.FirebaseTable.name tb ++ "/" ++ id)) in
     let legacy := if Admin.snapshot_exists s then Admin.snapshot_val s else VUndefined in
     truthy legacy = true -> truthy (fu legacy) = true ->
     exists w2,
       Admin.FirebaseTable.transitionById tb id fu w = (Ok tt, w2) /\
       Admin.calls w2 =
         (Admin.calls w ++
          [Admin.Read (Admin.RefGet (Admin.FirebaseTable.name tb ++ "/" ++ id));
           Admin.Write (Admin.RefUpdate (Admin.FirebaseTable.name tb ++ "/" ++ id)
                          (fu legacy))])%list) /\
  (forall db name (s1 s2 : Zod.schema) cb w,
     Rest.FirebaseCollection.update (Rest.FirebaseCollection.mk db s1 name) cb w
     = Rest.FirebaseCollection.update (Rest.FirebaseCollection.mk db s2 name) cb w) /\
  (forall db name (s1 s2 : Zod.schema) key v fu w,
     Rest.FirebaseTable.transitionByChild (Rest.FirebaseTable.mk db s1 name) key v fu w
     = Rest.FirebaseTable.transitionByChild (Rest.FirebaseTable.mk db s2 name) key v fu w) /\
  (forall db name (s1 s2 : Zod.schema) id fu w,
     Rest.FirebaseTable.transitionById (Rest.FirebaseTable.mk db s1 name) id fu w
     = Rest.FirebaseTable.transitionById (Rest.FirebaseTable.mk db s2 name) id fu w) /\
  (forall name (s1 s2 : Zod.schema) cb w,
     Admin.FirebaseCollection.update (Admin.FirebaseCollection.mk s1 name) cb w
     = Admin.FirebaseCollection.update (Admin.FirebaseCollection.mk s2 name) cb w) /\
  (forall name (s1 s2 : Zod.schema) key v fu w,
     Admin.FirebaseTable.transitionByChild (Admin.FirebaseTable.mk s1 name) key v fu w
     = Admin.FirebaseTable.transitionByChild (Admin.FirebaseTable.mk s2 name) key v fu w) /\
  (forall name (s1 s2 : Zod.schema) id fu w,
     Admin.FirebaseTable.transitionById (Admin.FirebaseTable.mk s1 name) id fu w
     = Admin.FirebaseTable.transitionById (Admin.FirebaseTable.mk s2 name) id fu w).
Proof.
  split; [| split; [| split; [| split; [| split; [| split; [| split;
    [| split; [| split; [| split]]]]]]]]].
  - intros c v w db name. rewrite collection_set_run. fold db name.
    destruct (Rest.FirebaseCollection.schema c v) as [data | issues]; [| reflexivity].
    destruct (set_run db name data w) as (w' & Hrun & Hreq & _).
    exists w'. split; [exact Hrun | exact Hreq].
  - intros tb v w db name. rewrite table_create_run. fold db name.
    destruct (Rest.FirebaseTable.schema tb v) as [data | issues]; [| reflexivity].
    destruct (push_run db name data w) as (w' & Hrun & Hreq & _).
    split; [reflexivity |]. rewrite Hrun. exact Hreq.
  - intros c v w. rewrite admin_set_run.
    destruct (Admin.FirebaseCollection.schema c v) as [data | issues]; [| reflexivity].
    eexists. split; reflexivity.
  - intros tb v w. rewrite admin_create_run.
    destruct (Admin.FirebaseTable.schema tb v) as [data | issues]; [| reflexivity].
    intros id. eexists. split; reflexivity.
  - intros c cb w db name g legacy.
    destruct (collection_update_run c cb w) as (w1 & Hget & Hreq & _ & Hupd).
    fold db name g legacy in Hget, Hreq, Hupd.
    destruct (truthy legacy).
    + destruct (update_run db name (cb legacy) w1) as (w2 & Hrun & Hreq2 & _).
      exists w1, w2. split; [now rewrite Hget |]. split; [now rewrite Hupd |].
      rewrite Hreq2, Hreq, <- app_assoc. reflexivity.
    + destruct (set_run db name (cb legacy) w1) as (w2 & Hrun & Hreq2 & _).
      exists w1, w2. split; [now rewrite Hget |]. split; [now rewrite Hupd |].
      rewrite Hreq2, Hreq, <- app_assoc. reflexivity.
  - intros tb key v fu w.
    destruct (table_findByChild_run tb key v w) as (w1 & Hfind & _).
    do 2 eexists. split; [exact Hfind |]. intros Hl Hu.
    rewrite (table_transitionByChild_after _ _ _ _ _ _ _ Hfind), Hl, Hu. cbn [andb].
    match goal with
    | |- context [FirebaseSDK.update ?d ?p ?y w1] =>
        destruct (update_run d p y w1) as (w2 & Hrun & Hreq2 & _)
    end.
    exists w2. split; [exact Hrun | exact Hreq2].
  - intros tb id fu w.
    destruct (table_findById_run tb id w) as (w1 & Hfind & _).
    do 2 eexists. split; [exact Hfind |]. intros Hl Hu.
    rewrite (table_transitionById_after _ _ _ _ _ _ Hfind), Hl, Hu. cbn [andb].
    match goal with
    | |- context [FirebaseSDK.update ?d ?p ?y w1] =>
        destruct (update_run d p y w1) as (w2 & Hrun & Hreq2 & _)
    end.
    exists w2. split; [exact Hrun | exact Hreq2].
  - intros c cb w name s legacy.
    destruct (admin_update_run c cb w) as [_ Hupd]. fold name in Hupd.
    change (Admin.val_or_undefined (Admin.db_snapshot (Admin.store w) (Admin.RefGet name)))
      with legacy in Hupd.
    eexists. split; [exact Hupd |]. cbn [Admin.calls].
    rewrite <- app_assoc. destruct (truthy legacy); reflexivity.
  - intros tb key v fu w. pose proof (admin_findByChild_run tb key v w) as Hfind.
    cbv zeta in Hfind.
    do 2 eexists. split; [exact Hfind |]. intros Hl Hu.
    rewrite (admin_transitionByChild_after _ _ _ _ _ _ _ Hfind), Hl, Hu. cbn [andb].
    eexists. split; reflexivity.
  - intros tb id fu w s legacy Hl Hu.
    pose proof (admin_findById_run tb id w) as Hfind. cbv zeta in Hfind.
    change (Admin.val_or_undefined
              (Admin.db_snapshot (Admin.store w)
                 (Admin.RefGet (Admin.FirebaseTable.row_path tb id))))
      with legacy in Hfind.
    rewrite (admin_transitionById_after _ _ _ _ _ _ Hfind), Hl, Hu. cbn [andb].
    eexists. split; [reflexivity |]. cbn. now rewrite <- app_assoc.
  - repeat split; reflexivity.
Qed.

End AccessorAmendments.

(** ** Counterexamples to the specification's wording *)

Lemma price_schema_validated (data : value) :
  Zod.validated Examples.price_schema data ->
  exists p, 0 < p /\ data = VObj [("price", VNum p)].
Proof.
  intros [v Hv]. unfold Examples.price_schema in Hv.
  destruct v; try discriminate.
  destruct (get_prop (VObj o) "price"); try discriminate.
  destruct (0 <? n) eqn:Hp; try discriminate.
  injection Hv as <-. exists n. split; [now apply Z.ltb_lt | reflexivity].
Qed.

Lemma string_of_positive_unsigned (p : Z) (rest : string) :
  0 < p -> string_of_Z p <> String "-" rest.
Proof.
  destruct p as [| q | q]; try lia. intros _.
  unfold string_of_Z. cbn [Z.to_int NilZero.string_of_int].
  unfold NilZero.string_of_uint.
  destruct (Pos.to_uint q); cbn; discriminate.
Qed.

Lemma negative_product_not_validated :
  ~ Zod.validated Examples.price_schema Examples.negative_product.
Proof.
  intros H. apply price_schema_validated in H as (p & Hp & Heq).
  injection Heq as Heq. lia.
Qed.

Lemma negative_product_body_not_validated (data : value) :
  Zod.validated Examples.price_schema data ->
  FirebaseSDK.body_of Examples.negative_product <> FirebaseSDK.body_of data.
Proof.
  intros H. apply price_schema_validated in H as (p & Hp & ->).
  cbn. intros Heq. injection Heq as Heq.
  destruct (string_of_Z p) as [| c rest] eqn:Hs; [discriminate |].
  cbn in Heq. injection Heq as Hc _.
  apply (string_of_positive_unsigned p rest Hp). now rewrite Hs, <- Hc.
Qed.

(** C1 fails for the three operations that take a callback.  Under the
    schema [{ price: positive }], a callback that yields [{ price: -1 }] (with
    the row's [_id] for [transitionByChild]) has its result written by
    [update] (over both transports), by [transitionById] and by
    [transitionByChild], although no validated value is, or is sent as,
    [{ price: -1 }]. *)
Lemma callback_result_written_unvalidated :
  let s := Examples.price_schema in
  let bad := fun _ : value => Examples.negative_product in
  let bad_row := fun _ : value => VObj [("price", VNum (-1)); ("_id", VStr "r1")] in
  let A0 := Examples.scripted_admin (Admin.mkSnapshot false VNull) in
  let A1 := Examples.scripted_admin (Admin.mkSnapshot true Examples.one_row) in
  let A2 := Examples.scripted_admin (Admin.mkSnapshot true Examples.product) in
  let E0 := Examples.scripted VNull VNull in
  ~ (forall path data,
       In (Admin.Write (Admin.RefSet path data))
          (Admin.calls (snd (Admin.FirebaseCollection.update
                               (Admin.FirebaseCollection.mk s "settings") bad
                               (Admin.initial (E := A0) O)))) ->
       Zod.validated s data) /\
  ~ (forall path data,
       In (Admin.Write (Admin.RefUpdate path data))
          (Admin.calls (snd (Admin.FirebaseTable.transitionById
                               (Admin.FirebaseTable.mk s "products") "r1" bad
                               (Admin.initial (E := A2) O)))) ->
       Zod.validated s data) /\
  ~ (forall path data,
       In (Admin.Write (Admin.RefUpdate path data))
          (Admin.calls (snd (Admin.FirebaseTable.transitionByChild
                               (Admin.FirebaseTable.mk s "products") "price" (VNum 1) bad_row
                               (Admin.initial (E := A1) O)))) ->
       Zod.validated s data) /\
  ~ (forall r,
       In r (FirebaseSDK.requests
               (snd (Rest.FirebaseCollection.update
                       (Rest.FirebaseCollection.mk Examples.sdk s "settings") bad
                       (FirebaseSDK.initial (E := E0) O)))) ->
       method r = PUT ->
       exists data, Zod.validated s data /\ body r = FirebaseSDK.body_of data).
Proof.
  intros s bad bad_row A0 A1 A2 E0. repeat split.
  - intros H. apply negative_product_not_validated.
    apply (H "settings"). cbn. auto.
  - intros H. apply negative_product_not_validated.
    apply (H "products/r1"). cbn. auto.
  - intros H. apply negative_product_not_validated.
    apply (H "products/r1"). cbn. auto.
  - intros H.
    destruct (H (FirebaseSDK.set_request Examples.sdk "settings" Examples.negative_product
                   "token-0")) as (data & Hval & Hbody).
    + cbn. auto.
    + reflexivity.
    + exact (negative_product_body_not_validated data Hval Hbody).
Qed.

(** C4 fails when the updater hands back another [_id].  The lookup finds
    row [r1]; the updater yields the truthy document [{ price: 2, _id: "r2" }];
    the merge goes to [products/r2], not to the found row. *)
Lemma transitionByChild_merges_elsewhere :
  let E0 := Examples.scripted Examples.one_row VNull in
  let tb := Rest.FirebaseTable.mk Examples.sdk Examples.price_schema "products" in
  let fu := fun _ : value => VObj [("price", VNum 2); ("_id", VStr "r2")] in
  let w0 := FirebaseSDK.initial (E := E0) O in
  exists row w1,
    Rest.FirebaseTable.findByChild tb "price" (VNum 1) w0 = (Ok row, w1) /\
    get_prop row "_id" = VStr "r1" /\
    truthy (fu row) = true /\
    ~ (forall r,
         In r (FirebaseSDK.requests
                 (snd (Rest.FirebaseTable.transitionByChild tb "price" (VNum 1) fu w0))) ->
         method r = PATCH ->
         url r = FirebaseSDK.node_url Examples.sdk (Rest.FirebaseTable.row_path tb "r1")).
Proof.
  intros E0 tb fu w0. do 2 eexists.
  split; [reflexivity |]. split; [reflexivity |]. split; [reflexivity |].
  intros H.
  specialize (H (FirebaseSDK.update_request Examples.sdk "products/r2"
                   (VObj [("price", VNum 2)]) "token-0")).
  assert (Hurl : "https://example.firebaseio.com/products/r2.json"
                 = "https://example.firebaseio.com/products/r1.json").
  { apply H; [cbn; auto | reflexivity]. }
  discriminate Hurl.
Qed.

(** ** Further runs on the example surroundings *)

Lemma update_merges_or_writes_witness :
  let E1 := Examples.scripted Examples.product VNull in
  let E0 := Examples.scripted VNull VNull in
  let A1 := Examples.scripted_admin (Admin.mkSnapshot true Examples.product) in
  let A0 := Examples.scripted_admin (Admin.mkSnapshot false VNull) in
  let c := Rest.FirebaseCollection.mk Examples.sdk Examples.price_schema "settings" in
  let ca := Admin.FirebaseCollection.mk Examples.price_schema "settings" in
  let cb := fun previous : value =>
    match previous with
    | VObj _ => VObj [("price", VNum 2)]
    | _ => VObj [("price", VNum 3)]
    end in
  (exists w2,
     Rest.FirebaseCollection.update c cb (FirebaseSDK.initial (E := E1) O) = (Ok tt, w2) /\
     map method (FirebaseSDK.requests w2) = [GET; PATCH] /\
     map body (FirebaseSDK.requests w2) = [None; JSON_stringify (VObj [("price", VNum 2)])]) /\
  (exists w2,
     Rest.FirebaseCollection.update c cb (FirebaseSDK.initial (E := E0) O) = (Ok tt, w2) /\
     map method (FirebaseSDK.requests w2) = [GET; PUT] /\
     map body (FirebaseSDK.requests w2) = [None; JSON_stringify (VObj [("price", VNum 3)])]) /\
  (exists w2,
     Admin.FirebaseCollection.update ca cb (Admin.initial (E := A1) O) = (Ok tt, w2) /\
     Admin.calls w2 = [Admin.Read (Admin.RefGet "settings");
                       Admin.Write (Admin.RefUpdate "settings" (VObj [("price", VNum 2)]))]) /\
  (exists w2,
     Admin.FirebaseCollection.update ca cb (Admin.initial (E := A0) O) = (Ok tt, w2) /\
     Admin.calls w2 = [Admin.Read (Admin.RefGet "settings");
                       Admin.Write (Admin.RefSet "settings" (VObj [("price", VNum 3)]))]).
Proof.
  intros E1 E0 A1 A0 c ca cb. split; [| split; [| split]].
  - destruct (proj1 (update_merges_or_writes (E := E1) (A := A1) cb) c
                (FirebaseSDK.initial (E := E1) O))
      as (legacy & w1 & w2 & g & r & Hget & Hreq1 & Hg & Hl & Hupd & Hreq2 & Hdoc & _).
    exists w2. split; [exact Hupd |].
    assert (Hlegacy : legacy = Examples.product) by (rewrite Hl, Hg; reflexivity).
    injection Hget as _ Hw1.
    rewrite Hreq2, Hreq1, Hg, (Hdoc _ Hlegacy), Hlegacy. split; reflexivity.
  - destruct (proj1 (update_merges_or_writes (E := E0) (A := A1) cb) c
                (FirebaseSDK.initial (E := E0) O))
      as (legacy & w1 & w2 & g & r & Hget & Hreq1 & Hg & Hl & Hupd & Hreq2 & _ & Hnull).
    exists w2. split; [exact Hupd |].
    assert (Hlegacy : legacy = VNull) by (rewrite Hl, Hg; reflexivity).
    injection Hget as _ Hw1.
    rewrite Hreq2, Hreq1, Hg, (Hnull Hlegacy), Hlegacy. split; reflexivity.
  - destruct (proj2 (update_merges_or_writes (E := E1) (A := A1) cb) ca
                (Admin.initial (E := A1) O))
      as (legacy & w1 & w2 & _ & Hcalls & _ & Hval & _ & Hupd & Hdoc & _).
    exists w2. split; [exact Hupd |].
    assert (Hlegacy : legacy = Examples.product) by (rewrite Hval; reflexivity).
    rewrite (Hdoc _ Hlegacy), Hcalls, Hlegacy. reflexivity.
  - destruct (proj2 (update_merges_or_writes (E := E1) (A := A0) cb) ca
                (Admin.initial (E := A0) O))
      as (legacy & w1 & w2 & _ & Hcalls & _ & _ & Habsent & Hupd & _ & Hund).
    exists w2. split; [exact Hupd |].
    assert (Hlegacy : legacy = VUndefined) by (apply Habsent; reflexivity).
    rewrite (Hund Hlegacy), Hcalls, Hlegacy. reflexivity.
Defined.

Lemma transition_declined_is_noop_witness :
  let E1 := Examples.scripted Examples.one_row VNull in
  let A0 := Examples.scripted_admin (Admin.mkSnapshot false VNull) in
  let declines := fun _ : value => VBool false in
  let tb := Rest.FirebaseTable.mk Examples.sdk Examples.price_schema "products" in
  let ta := Admin.FirebaseTable.mk Examples.price_schema "products" in
  (exists w1,
     Rest.FirebaseTable.transitionByChild tb "price" (VNum 1) declines
       (FirebaseSDK.initial (E := E1) O) = (Ok tt, w1) /\
     map method (FirebaseSDK.requests w1) = [GET] /\ FirebaseSDK.store w1 = O) /\
  (exists w1,
     Admin.FirebaseTable.transitionById ta "r1" (fun row => row)
       (Admin.initial (E := A0) O) = (Ok tt, w1) /\
     Admin.calls w1 = [Admin.Read (Admin.RefGet "products/r1")] /\ Admin.store w1 = O).
Proof.
  intros E1 A0 declines tb ta. split.
  - destruct (proj1 (transition_declined_is_noop (E := E1) (A := A0) declines)
                tb "price" (VNum 1) (FirebaseSDK.initial (E := E1) O))
      as (legacy & w1 & Hfind & Hreq & Hg & Hst & _ & Hnoop).
    exists w1. split; [apply Hnoop; right; reflexivity |].
    rewrite Hreq, Hst. split; reflexivity.
  - destruct (proj2 (proj2 (proj2 (transition_declined_is_noop (E := E1) (A := A0)
                                     (fun row => row))))
                ta "r1" (Admin.initial (E := A0) O))
      as (legacy & w1 & Hfind & Hcalls & Hst & Habsent & Hnoop).
    exists w1. split; [apply Hnoop; left; now rewrite Habsent |].
    rewrite Hcalls, Hst. split; reflexivity.
Defined.

Lemma transitionByChild_merges_at_returned_id_witness :
  let E1 := Examples.scripted Examples.one_row VNull in
  let A1 := Examples.scripted_admin (Admin.mkSnapshot true Examples.one_row) in
  let reprice := fun row : value => VObj (obj_set "price" (VNum 2) (own_entries row)) in
  let tb := Rest.FirebaseTable.mk Examples.sdk Examples.price_schema "products" in
  exists w2,
    Rest.FirebaseTable.transitionByChild tb "price" (VNum 1) reprice
      (FirebaseSDK.initial (E := E1) O) = (Ok tt, w2) /\
    map method (FirebaseSDK.requests w2) = [GET; PATCH] /\
    map url (FirebaseSDK.requests w2)
    = [ "https://example.firebaseio.com/products.json?orderBy=%22price%22&equalTo=1";
        "https://example.firebaseio.com/products/r1.json" ] /\
    map body (FirebaseSDK.requests w2) = [None; JSON_stringify (VObj [("price", VNum 2)])].
Proof.
  intros E1 A1 reprice tb.
  destruct (proj1 (transitionByChild_merges_at_returned_id (E := E1) (A := A1) reprice)
              tb "price" (VNum 1) (FirebaseSDK.initial (E := E1) O))
    as (legacy & w1 & g & Hfind & Hreq & Hg & Hmerge).
  injection Hfind as Hlegacy Hw1.
  destruct Hmerge as (w2 & r & Hrun & Hreq2 & Hm & Hurl & Hbody & _ & Hsame);
    [now rewrite <- Hlegacy | now rewrite <- Hlegacy |].
  exists w2. split; [exact Hrun |].
  rewrite Hreq2, !map_app, <- Hw1. cbn [map].
  rewrite Hm, Hbody, (Hsame "r1"), <- Hlegacy; try (rewrite <- Hlegacy; reflexivity).
  repeat split.
Defined.

Lemma set_and_create_validate_callbacks_do_not_witness :
  let E0 := Examples.scripted VNull VNull in
  let A0 := Examples.scripted_admin (Admin.mkSnapshot false VNull) in
  let c := Rest.FirebaseCollection.mk Examples.sdk Examples.price_schema "settings" in
  let v := VObj [("price", VNum 1); ("note", VStr "extra")] in
  let bad := fun _ : value => Examples.negative_product in
  let w0 := FirebaseSDK.initial (E := E0) O in
  (exists w',
     Rest.FirebaseCollection.set c v w0 = (Ok tt, w') /\
     map body (FirebaseSDK.requests w') = [JSON_stringify Examples.product]) /\
  Rest.FirebaseCollection.set c Examples.negative_product w0
  = (Thrown (ZodError ["price: too small"]), w0) /\
  Examples.price_schema (bad VNull) = Zod.Invalid ["price: too small"] /\
  (exists w2,
     Rest.FirebaseCollection.update c bad w0 = (Ok tt, w2) /\
     map method (FirebaseSDK.requests w2) = [GET; PUT] /\
     map body (FirebaseSDK.requests w2) = [None; JSON_stringify Examples.negative_product]).
Proof.
  intros E0 A0 c v bad w0.
  destruct (set_and_create_validate_callbacks_do_not (E := E0) (A := A0))
    as (Hset & _ & _ & _ & Hupdate & _).
  split; [| split; [| split]].
  - pose proof (Hset c v w0) as H. cbv zeta in H.
    change (Rest.FirebaseCollection.schema c v) with (Zod.Parsed Examples.product) in H.
    cbv beta iota in H. destruct H as (w' & Hrun & Hreq).
    exists w'. split; [exact Hrun |]. rewrite Hreq. reflexivity.
  - pose proof (Hset c Examples.negative_product w0) as H. cbv zeta in H.
    change (Rest.FirebaseCollection.schema c Examples.negative_product)
      with (Zod.Invalid ["price: too small"]) in H.
    exact H.
  - reflexivity.
  - destruct (Hupdate c bad w0) as (w1 & w2 & Hw1 & Hrun & Hreq).
    exists w2. split; [exact Hrun |]. rewrite Hreq, <- Hw1. split; reflexivity.
Defined.

Lemma string_body_sent_verbatim_witness :
  let E0 := Examples.scripted VNull VNull in
  exists (r1 r2 : request) (w1 w2 : FirebaseSDK.world),
    FirebaseSDK.set Examples.sdk "note" (VStr "hello") (FirebaseSDK.initial (E := E0) O)
      = (Ok tt, w1) /\
    FirebaseSDK.requests w1 = [r1] /\ body r1 = Some "hello" /\
    FirebaseSDK.update Examples.sdk "note" (VStr "hello") (FirebaseSDK.initial (E := E0) O)
      = (Ok tt, w2) /\
    FirebaseSDK.requests w2 = [r2] /\ body r2 = Some "hello" /\
    JSON_stringify (VStr "hello") <> Some "hello".
Proof.
  intros E0.
  destruct (string_body_sent_verbatim (E := E0) Examples.sdk "note" (VStr "hello")
              (FirebaseSDK.initial (E := E0) O))
    as (r1 & r2 & w1 & w2 & Hset & Hr1 & _ & _ & Hupd & Hr2 & _ & _ & Hstr & _).
  destruct (Hstr "hello" eq_refl) as (Hb1 & Hb2 & Hne).
  exists r1, r2, w1, w2. repeat split; assumption.
Defined.

(** ** Remarks on answers outside the data model *)

(** [update] tests the value read for truthiness.  A stored [0], which is
    not a document, is therefore overwritten with a full write. *)
Remark update_on_stored_falsy_scalar :
  let E0 := Examples.scripted (VNum 0) VNull in
  let A0 := Examples.scripted_admin (Admin.mkSnapshot true (VNum 0)) in
  let cb := fun _ : value => Examples.product in
  map method
      (FirebaseSDK.requests
         (snd (Rest.FirebaseCollection.update
                 (Rest.FirebaseCollection.mk Examples.sdk Examples.price_schema "settings") cb
                 (FirebaseSDK.initial (E := E0) O)))) = [GET; PUT] /\
  Admin.calls
    (snd (Admin.FirebaseCollection.update
            (Admin.FirebaseCollection.mk Examples.price_schema "settings") cb
            (Admin.initial (E := A0) O)))
  = [Admin.Read (Admin.RefGet "settings");
     Admin.Write (Admin.RefSet "settings" Examples.product)].
Proof. split; reflexivity. Qed.

(** A filtered read answered with an object that has no property:
    [filterByChild] yields no row, [findByChild] yields the row
    [{ _id: undefined }], and [transitionByChild] hands that row to the
    updater and merges a truthy result at [products/undefined]. *)
Remark findByChild_on_empty_object :
  let E0 := Examples.scripted (VObj []) VNull in
  let tb := Rest.FirebaseTable.mk Examples.sdk Examples.price_schema "products" in
  let reprice := fun row : value => VObj (obj_set "price" (VNum 2) (own_entries row)) in
  let w0 := FirebaseSDK.initial (E := E0) O in
  fst (Rest.FirebaseTable.filterByChild tb "price" (VNum 1) w0) = Ok [] /\
  fst (Rest.FirebaseTable.findByChild tb "price" (VNum 1) w0)
  = Ok (VObj [("_id", VUndefined)]) /\
  map (fun r => (method r, url r))
      (FirebaseSDK.requests
         (snd (Rest.FirebaseTable.transitionByChild tb "price" (VNum 1) reprice w0)))
  = [ (GET, "https://example.firebaseio.com/products.json?orderBy=%22price%22&equalTo=1");
      (PATCH, "https://example.firebaseio.com/products/undefined.json") ].
Proof. repeat split. Qed.

(** * Further properties of the code *)

(** ** The constructor of [FirebaseSDK] *)

Lemma ends_with_slash_app (d : string) :
  FirebaseSDK.ends_with_slash (d ++ "/") = true.
Proof.
  induction d as [| c d IH]; [reflexivity |].
  cbn [append FirebaseSDK.ends_with_slash].
  destruct (d ++ "/") eqn:Hd; [destruct d; discriminate | exact IH].
Qed.

Lemma drop_last_app (d : string) :
  FirebaseSDK.drop_last (d ++ "/") = d.
Proof.
  induction d as [| c d IH]; [reflexivity |].
  cbn [append FirebaseSDK.drop_last].
  destruct (d ++ "/") eqn:Hd; [destruct d; discriminate | now rewrite IH].
Qed.

(** X1.  The constructor removes exactly one trailing slash of the database
    URL and leaves a URL without one as it is, so a URL written with or
    without the trailing slash gives the same request URLs,
    [database/path.json]. *)
Theorem new_strips_one_trailing_slash (r : FirebaseSDK.revision) (d path : string) :
  FirebaseSDK.target (FirebaseSDK.new r (d ++ "/")) = d /\
  (FirebaseSDK.ends_with_slash d = false ->
   FirebaseSDK.target (FirebaseSDK.new r d) = d /\
   FirebaseSDK.node_url (FirebaseSDK.new r (d ++ "/")) path
   = FirebaseSDK.node_url (FirebaseSDK.new r d) path /\
   FirebaseSDK.node_url (FirebaseSDK.new r d) path = d ++ "/" ++ path ++ ".json").
Proof.
  assert (Hs : FirebaseSDK.target (FirebaseSDK.new r (d ++ "/")) = d).
  { cbn. now rewrite ends_with_slash_app, drop_last_app. }
  split; [exact Hs |]. intros Hno.
  assert (Hd : FirebaseSDK.target (FirebaseSDK.new r d) = d).
  { cbn. now rewrite Hno. }
  unfold FirebaseSDK.node_url. rewrite Hs, Hd. repeat split.
Qed.

Lemma new_strips_one_trailing_slash_witness :
  FirebaseSDK.target (FirebaseSDK.new FirebaseSDK.Original "https://db.example//")
  = "https://db.example/" /\
  FirebaseSDK.node_url (FirebaseSDK.new FirebaseSDK.NoStore "https://db.example/") "a/b"
  = "https://db.example/a/b.json".
Proof.
  split.
  - exact (proj1 (new_strips_one_trailing_slash FirebaseSDK.Original
                    "https://db.example/" EmptyString)).
  - destruct (proj2 (new_strips_one_trailing_slash FirebaseSDK.NoStore
                       "https://db.example" "a/b") eq_refl) as (_ & Hsame & Hurl).
    change ("https://db.example/") with ("https://db.example" ++ "/").
    now rewrite Hsame, Hurl.
Defined.

(** ** The token cache over several calls *)

Section TokenRuns.
Context {E : Environment}.
Import FirebaseSDK.

Lemma after_calls_step (n : nat) (w : world) :
  Runs.after_calls (S n) w = Runs.after_calls n (with_token w).
Proof. cbn [Runs.after_calls]. now rewrite getAccessToken_run. Qed.

Lemma token_calls_step (n : nat) (w : world) :
  token_calls (S n) w =
  mkUse (clock (ticks w)) (Ok (current_token w)) (current_token w)
        (expire (cached (with_token w))) :: token_calls n (with_token w).
Proof. cbn [token_calls]. now rewrite getAccessToken_run. Qed.

Lemma with_token_reuse (w : world) :
  stale w = false ->
  with_token w = mkWorld (cached w) (S (ticks w)) (auth_calls w) (requests w) (store w).
Proof. intros H. unfold with_token. now rewrite H. Qed.

Lemma with_token_refresh (w : world) :
  stale w = true ->
  with_token w =
  mkWorld (mkStorage (provider (auth_calls w)) (clock (ticks w) + 3300000))
          (S (ticks w)) (S (auth_calls w)) (requests w) (store w).
Proof. intros H. unfold with_token. now rewrite H. Qed.

(** While the cached token is not empty and the clock does not pass its
    expiry, calls reuse it and leave the provider alone. *)
Lemma reuse_run (n : nat) (w : world) :
  token (cached w) <> EmptyString ->
  (forall i, (i < n)%nat -> clock (ticks w + i) <= expire (cached w)) ->
  auth_calls (Runs.after_calls n w) = auth_calls w /\
  cached (Runs.after_calls n w) = cached w /\
  Forall (fun u => returned u = Ok (token (cached w)) /\
                   held_expiry u = expire (cached w))
         (token_calls n w).
Proof.
  revert w. induction n as [| n IH]; intros w Htok Hclock.
  - cbn. repeat split. constructor.
  - assert (Hs : stale w = false).
    { destruct (stale w) eqn:Hs; [| reflexivity].
      apply stale_iff in Hs as [Hs | Hs]; [contradiction |].
      specialize (Hclock O (Nat.lt_0_succ n)). rewrite Nat.add_0_r in Hclock. lia. }
    rewrite after_calls_step, token_calls_step.
    unfold current_token. rewrite (with_token_reuse w Hs).
    cbn [cached ticks auth_calls].
    destruct (IH (mkWorld (cached w) (S (ticks w)) (auth_calls w) (requests w) (store w)))
      as (Ha & Hc & Hall).
    + exact Htok.
    + intros i Hi. cbn [ticks cached]. rewrite Nat.add_succ_l, <- Nat.add_succ_r.
      apply Hclock. lia.
    + cbn [cached auth_calls] in Ha, Hc, Hall.
      split; [exact Ha |]. split; [exact Hc |].
      constructor; [split; reflexivity | exact Hall].
Qed.

(** X2.  Starting with nothing usable in the cache, [n + 1] consecutive calls
    whose clock readings stay within 3,300,000 ms of the first one ask the
    provider exactly once, provided the token it gives is not empty; every
    call returns that one token. *)
Theorem one_fetch_serves_the_window (n : nat) (w : world) :
  stale w = true ->
  provider (auth_calls w) <> EmptyString ->
  (forall i, (1 <= i <= n)%nat -> clock (ticks w + i) <= clock (ticks w) + 3300000) ->
  auth_calls (Runs.after_calls (S n) w) = S (auth_calls w) /\
  Forall (fun u => returned u = Ok (provider (auth_calls w)))
         (token_calls (S n) w).
Proof.
  intros Hs Htok Hclock.
  rewrite after_calls_step, token_calls_step. unfold current_token.
  rewrite (with_token_refresh w Hs). cbn [cached token expire].
  match goal with
  | |- context [Runs.after_calls n ?w1] =>
      destruct (reuse_run n w1) as (Ha & _ & Hall)
  end.
  - exact Htok.
  - intros i Hi. cbn [ticks cached expire].
    rewrite Nat.add_succ_l, <- Nat.add_succ_r. apply Hclock. lia.
  - cbn [cached auth_calls token expire] in Ha, Hall.
    split; [exact Ha |].
    constructor; [reflexivity |].
    eapply Forall_impl; [| exact Hall]. intros u [Hu _]. exact Hu.
Qed.

(** X3.  An empty token from the provider is handed out but never reused:
    with a provider that only gives empty tokens, each of [n] calls made on
    an empty cache asks the provider again. *)
Theorem empty_token_is_never_cached (n : nat) (w : world) :
  (forall k, provider k = EmptyString) ->
  token (cached w) = EmptyString ->
  auth_calls (Runs.after_calls n w) = (auth_calls w + n)%nat /\
  Forall (fun u => returned u = Ok EmptyString) (token_calls n w).
Proof.
  intros Hprov. revert w. induction n as [| n IH]; intros w Htok.
  - cbn. split; [now rewrite Nat.add_0_r | constructor].
  - assert (Hs : stale w = true) by (apply stale_iff; now left).
    rewrite after_calls_step, token_calls_step. unfold current_token.
    rewrite (with_token_refresh w Hs). cbn [cached token].
    match goal with
    | |- context [Runs.after_calls n ?w1] => destruct (IH w1) as (Ha & Hall)
    end.
    + cbn. apply Hprov.
    + cbn [auth_calls] in Ha. split; [rewrite Ha; lia |].
      constructor; [cbn; now rewrite Hprov | exact Hall].
Qed.

End TokenRuns.

Lemma one_fetch_serves_the_window_witness :
  let t0 := 1700000000000 in
  let E := Examples.timed [t0; t0 + 100; t0 + 3300000] in
  let w0 := FirebaseSDK.initial (E := E) tt in
  FirebaseSDK.auth_calls (Runs.after_calls 3 w0) = 1%nat /\
  Forall (fun u => FirebaseSDK.returned u = Ok "token-0") (FirebaseSDK.token_calls 3 w0).
Proof.
  intros t0 E w0.
  apply (one_fetch_serves_the_window (E := E) 2 w0).
  - reflexivity.
  - discriminate.
  - intros i Hi. destruct i as [| [| [| i]]]; try lia; vm_compute; discriminate.
Defined.

Lemma empty_token_is_never_cached_witness :
  let w0 := FirebaseSDK.initial (E := Surroundings.tokenless) tt in
  FirebaseSDK.auth_calls (Runs.after_calls 4 w0) = 4%nat /\
  Forall (fun u => FirebaseSDK.returned u = Ok EmptyString) (FirebaseSDK.token_calls 4 w0).
Proof.
  intros w0.
  apply (empty_token_is_never_cached (E := Surroundings.tokenless) 4 w0).
  - intros k. reflexivity.
  - reflexivity.
Defined.

(** ** The public methods of [FirebaseSDK] *)

Section PublicMethods.
Context {E : Environment}.
Import FirebaseSDK.

Ltac run_public w :=
  unfold get, orderBy, set, update, push, delete, bind;
  rewrite getAccessToken_run; unfold fetch, ret, throw;
  cbn [method get_request orderBy_request set_request push_request update_request
         delete_request];
  let Hr := fresh "Hr" in
  let Hs := fresh "Hs" in
  destruct (with_token_frame w) as (Hr & Hs & _); rewrite Hr, Hs.

Lemma delete_run (sdk : t) (path : string) (w : world) :
  let r := delete_request sdk path (current_token w) in
  exists w',
    delete sdk path w = (Ok tt, w') /\
    requests w' = (requests w ++ [r])%list /\
    store w' = snd (store_write r (store w)).
Proof.
  run_public w. destruct (store_write _ (store w)) as [answer s].
  eexists. repeat split.
Qed.

(** What every public method leaves in the world, whatever it returns: the
    cache as [getAccessToken] left it, one more clock reading, and its one
    request after the earlier ones. *)
Lemma get_world (sdk : t) (path : string) (w : world) :
  let w' := snd (get sdk path w) in
  cached w' = cached (with_token w) /\ ticks w' = S (ticks w) /\
  auth_calls w' = auth_calls (with_token w) /\
  requests w' = (requests w ++ [get_request sdk path (current_token w)])%list.
Proof.
  run_public w. cbn. destruct (with_token_frame w) as (_ & _ & Ht). auto.
Qed.

Lemma orderBy_world (sdk : t) (path : string) (query : object) (w : world) :
  let w' := snd (orderBy sdk path query w) in
  cached w' = cached (with_token w) /\ ticks w' = S (ticks w) /\
  auth_calls w' = auth_calls (with_token w) /\
  requests w' = (requests w ++ [orderBy_request sdk path query (current_token w)])%list.
Proof.
  run_public w. cbn. destruct (with_token_frame w) as (_ & _ & Ht). auto.
Qed.

Lemma set_world (sdk : t) (path : string) (v : value) (w : world) :
  let w' := snd (set sdk path v w) in
  cached w' = cached (with_token w) /\ ticks w' = S (ticks w) /\
  auth_calls w' = auth_calls (with_token w) /\
  requests w' = (requests w ++ [set_request sdk path v (current_token w)])%list.
Proof.
  run_public w. destruct (store_write _ (store w)) as [answer s]. cbn.
  destruct (with_token_frame w) as (_ & _ & Ht). auto.
Qed.

Lemma update_world (sdk : t) (path : string) (v : value) (w : world) :
  let w' := snd (update sdk path v w) in
  cached w' = cached (with_token w) /\ ticks w' = S (ticks w) /\
  auth_calls w' = auth_calls (with_token w) /\
  requests w' = (requests w ++ [update_request sdk path v (current_token w)])%list.
Proof.
  run_public w. destruct (store_write _ (store w)) as [answer s]. cbn.
  destruct (with_token_frame w) as (_ & _ & Ht). auto.
Qed.

Lemma push_world (sdk : t) (path : string) (v : value) (w : world) :
  let w' := snd (push sdk path v w) in
  cached w' = cached (with_token w) /\ ticks w' = S (ticks w) /\
  auth_calls w' = auth_calls (with_token w) /\
  requests w' = (requests w ++ [push_request sdk path v (current_token w)])%list.
Proof.
  run_public w. destruct (store_write _ (store w)) as [answer s]. cbn.
  destruct (with_token_frame w) as (_ & _ & Ht).
  destruct answer; cbn; auto.
Qed.

Lemma delete_world (sdk : t) (path : string) (w : world) :
  let w' := snd (delete sdk path w) in
  cached w' = cached (with_token w) /\ ticks w' = S (ticks w) /\
  auth_calls w' = auth_calls (with_token w) /\
  requests w' = (requests w ++ [delete_request sdk path (current_token w)])%list.
Proof.
  run_public w. destruct (store_write _ (store w)) as [answer s]. cbn.
  destruct (with_token_frame w) as (_ & _ & Ht). auto.
Qed.

Lemma with_token_auth_calls (w : world) :
  (auth_calls w <= auth_calls (with_token w) <= S (auth_calls w))%nat.
Proof. unfold with_token. destruct (stale w); cbn; lia. Qed.

End PublicMethods.

Section PublicMethodProperties.
Context {E : Environment}.
Import FirebaseSDK.

(** X4.  Each of the six public methods reads the clock once, asks the
    provider at most once, and sends exactly one request, of its own HTTP
    method and with the [cache] option of the revision.  The request's
    [Authorization] header is [Bearer] followed by the token the cache holds
    when the method returns, and the expiry held for that token is not
    earlier than the instant the method read.  [get], [orderBy] and [delete]
    send no body. *)
Theorem every_method_sends_one_authorized_request
    (sdk : t) (path : string) (v : value) (query : object) (w : world) :
  let tok := current_token w in
  let sent := fun (w' : world) (r : request) =>
    requests w' = (requests w ++ [r])%list /\
    In ("Authorization", "Bearer " ++ tok) (headers r) /\
    cache r = cache_option sdk /\
    token (cached w') = tok /\ clock (ticks w) <= expire (cached w') /\
    ticks w' = S (ticks w) /\
    (auth_calls w <= auth_calls w' <= S (auth_calls w))%nat in
  (exists r, sent (snd (get sdk path w)) r /\
             method r = GET /\ url r = node_url sdk path /\ body r = None) /\
  (exists r, sent (snd (orderBy sdk path query w)) r /\
             method r = GET /\ body r = None) /\
  (exists r, sent (snd (set sdk path v w)) r /\
             method r = PUT /\ url r = node_url sdk path) /\
  (exists r, sent (snd (push sdk path v w)) r /\
             method r = POST /\ url r = node_url sdk path) /\
  (exists r, sent (snd (update sdk path v w)) r /\
             method r = PATCH /\ url r = node_url sdk path) /\
  (exists r, sent (snd (delete sdk path w)) r /\
             method r = DELETE /\ url r = node_url sdk path /\ body r = None).
Proof.
  intros tok sent.
  assert (Hsent : forall w' r,
             cached w' = cached (with_token w) /\ ticks w' = S (ticks w) /\
             auth_calls w' = auth_calls (with_token w) /\
             requests w' = (requests w ++ [r])%list ->
             In ("Authorization", "Bearer " ++ tok) (headers r) ->
             cache r = cache_option sdk -> sent w' r).
  { intros w' r (Hc & Ht & Ha & Hr) Hin Hcache. unfold sent.
    split; [exact Hr |]. split; [exact Hin |]. split; [exact Hcache |].
    rewrite Hc, Ha. split; [reflexivity |]. split; [apply with_token_fresh |].
    split; [exact Ht | apply with_token_auth_calls]. }
  split; [| split; [| split; [| split; [| split]]]]; eexists; (split; [apply Hsent |]).
  - apply get_world.
  - cbn. auto.
  - reflexivity.
  - repeat split.
  - apply orderBy_world.
  - cbn. auto.
  - reflexivity.
  - repeat split.
  - apply set_world.
  - cbn. auto.
  - reflexivity.
  - repeat split.
  - apply push_world.
  - cbn. auto.
  - reflexivity.
  - repeat split.
  - apply update_world.
  - cbn. auto.
  - reflexivity.
  - repeat split.
  - apply delete_world.
  - cbn. auto.
  - reflexivity.
  - repeat split.
Qed.

(** X5.  [push] returns whatever the store's answer holds under [name]:
    [undefined] when the answer is an object without that property, with no
    error raised.  When the answer is [null] it raises [TypeError]; the
    request has been sent by then and the store has applied it. *)
Theorem push_returns_the_answered_name (sdk : t) (path : string) (v : value) (w : world) :
  let r := push_request sdk path v (current_token w) in
  let answer := fst (store_write r (store w)) in
  requests (snd (push sdk path v w)) = (requests w ++ [r])%list /\
  store (snd (push sdk path v w)) = snd (store_write r (store w)) /\
  (answer = VNull -> fst (push sdk path v w) = Thrown TypeError) /\
  (forall o, answer = VObj o ->
     fst (push sdk path v w) = Ok (get_prop answer "name") /\
     (assoc "name" o = None -> fst (push sdk path v w) = Ok VUndefined)).
Proof.
  intros r answer.
  destruct (push_run sdk path v w) as (w' & Hrun & Hreq & Hst).
  fold r in Hrun, Hreq, Hst. fold answer in Hrun.
  rewrite Hrun. cbn [fst snd]. split; [exact Hreq |]. split; [exact Hst |]. split.
  - intros Hnull. now rewrite Hnull.
  - intros o Ho. rewrite Ho. split; [reflexivity |].
    intros Hname. unfold get_prop. cbn [own_entries]. now rewrite Hname.
Qed.

End PublicMethodProperties.

Lemma push_returns_the_answered_name_witness :
  let broken := Surroundings.answering VNull (fun _ => VNull) in
  let strange := Surroundings.answering VNull (fun _ => VObj [("error", VStr "denied")]) in
  (fst (FirebaseSDK.push Examples.sdk "products" Examples.product
          (FirebaseSDK.initial (E := broken) O)) = Thrown TypeError /\
   FirebaseSDK.store (snd (FirebaseSDK.push Examples.sdk "products" Examples.product
                             (FirebaseSDK.initial (E := broken) O))) = 1%nat) /\
  fst (FirebaseSDK.push Examples.sdk "products" Examples.product
         (FirebaseSDK.initial (E := strange) O)) = Ok VUndefined.
Proof.
  intros broken strange. split.
  - destruct (push_returns_the_answered_name (E := broken) Examples.sdk "products"
                Examples.product (FirebaseSDK.initial (E := broken) O))
      as (_ & Hst & Hnull & _).
    split; [apply Hnull; reflexivity | rewrite Hst; reflexivity].
  - destruct (push_returns_the_answered_name (E := strange) Examples.sdk "products"
                Examples.product (FirebaseSDK.initial (E := strange) O))
      as (_ & _ & _ & Hobj).
    destruct (Hobj [("error", VStr "denied")] eq_refl) as [_ Hundef].
    apply Hundef. reflexivity.
Defined.

(** ** Reads, deletions and rejected creations in the accessor layer *)

Section AccessorReadsAndDeletes.
Context {E : Environment} {A : Admin.Environment}.

(** X6.  [create] with a value the bound schema rejects raises the schema's
    error and leaves the world as it found it: nothing is sent, no token is
    requested, and over [firebase-admin] no [uuid] is drawn. *)
Theorem create_invalid_raises_before_transport (s : Zod.schema) (v : value)
    (issues : list string) :
  s v = Zod.Invalid issues ->
  (forall (db : FirebaseSDK.t) (name : string) (w : FirebaseSDK.world),
     Rest.FirebaseTable.create (Rest.FirebaseTable.mk db s name) v w
     = (Thrown (ZodError issues), w)) /\
  (forall (name : string) (w : Admin.world),
     Admin.FirebaseTable.create (Admin.FirebaseTable.mk s name) v w
     = (Thrown (ZodError issues), w)).
Proof.
  intros Hbad. split.
  - intros db name w. rewrite table_create_run. cbn. now rewrite Hbad.
  - intros name w. rewrite admin_create_run. cbn. now rewrite Hbad.
Qed.

Lemma rest_findAll_run (tb : Rest.FirebaseTable.t) (w : FirebaseSDK.world) :
  let db := Rest.FirebaseTable.database tb in
  let g := FirebaseSDK.get_request db (Rest.FirebaseTable.name tb)
             (FirebaseSDK.current_token w) in
  let snapshot := store_read (FirebaseSDK.store w) g in
  exists w1,
    Rest.FirebaseTable.findAll tb w
    = (Ok (if truthy snapshot then Rest.FirebaseTable.rows snapshot else []), w1) /\
    FirebaseSDK.requests w1 = (FirebaseSDK.requests w ++ [g])%list /\
    FirebaseSDK.store w1 = FirebaseSDK.store w.
Proof.
  intros db g snapshot.
  destruct (get_run db (Rest.FirebaseTable.name tb) w) as (w1 & Hget & Hreq & Hst).
  exists w1. unfold Rest.FirebaseTable.findAll, bind, ret. fold db. rewrite Hget.
  repeat split; auto.
Qed.

Lemma rest_filterByChild_run (tb : Rest.FirebaseTable.t) (key : string) (v : value)
    (w : FirebaseSDK.world) :
  let db := Rest.FirebaseTable.database tb in
  let g := FirebaseSDK.orderBy_request db (Rest.FirebaseTable.name tb)
             (Rest.FirebaseTable.child_query key v) (FirebaseSDK.current_token w) in
  let snapshot := store_read (FirebaseSDK.store w) g in
  exists w1,
    Rest.FirebaseTable.filterByChild tb key v w
    = (Ok (if truthy snapshot then Rest.FirebaseTable.rows snapshot else []), w1) /\
    Rest.FirebaseTable.findByChild tb key v w
    = (Ok (if truthy snapshot then
             spread_with_id (get_prop snapshot (string_or_undefined (first_key snapshot)))
                            (first_key snapshot)
           else VUndefined), w1) /\
    FirebaseSDK.requests w1 = (FirebaseSDK.requests w ++ [g])%list /\
    FirebaseSDK.store w1 = FirebaseSDK.store w.
Proof.
  intros db g snapshot.
  destruct (orderBy_run db (Rest.FirebaseTable.name tb)
              (Rest.FirebaseTable.child_query key v) w) as (w1 & Hget & Hreq & Hst).
  exists w1.
  unfold Rest.FirebaseTable.filterByChild, Rest.FirebaseTable.findByChild, bind, ret.
  fold db. rewrite Hget. repeat split; auto.
Qed.

(** X7.  The five reading operations of either accessor layer return
    normally after exactly one read: over REST one bodiless [GET], over
    [firebase-admin] one snapshot read.  None of them writes: the store is
    as it was, and no [uuid] is drawn. *)
Theorem reads_leave_the_store_alone :
  (forall (c : Rest.FirebaseCollection.t) (tb : Rest.FirebaseTable.t)
          (id key : string) (v : value) (w : FirebaseSDK.world),
     let one_get := fun (w' : FirebaseSDK.world) =>
       FirebaseSDK.store w' = FirebaseSDK.store w /\
       exists g, FirebaseSDK.requests w' = (FirebaseSDK.requests w ++ [g])%list /\
                 method g = GET /\ body g = None in
     (exists a w', Rest.FirebaseCollection.get c w = (Ok a, w') /\ one_get w') /\
     (exists a w', Rest.FirebaseTable.findAll tb w = (Ok a, w') /\ one_get w') /\
     (exists a w', Rest.FirebaseTable.findById tb id w = (Ok a, w') /\ one_get w') /\
     (exists a w', Rest.FirebaseTable.findByChild tb key v w = (Ok a, w') /\ one_get w') /\
     (exists a w', Rest.FirebaseTable.filterByChild tb key v w = (Ok a, w') /\ one_get w')) /\
  (forall (c : Admin.FirebaseCollection.t) (tb : Admin.FirebaseTable.t)
          (id key : string) (v : value) (w : Admin.world),
     let one_read := fun (w' : Admin.world) =>
       Admin.store w' = Admin.store w /\ Admin.uuid_calls w' = Admin.uuid_calls w /\
       exists q, Admin.calls w' = (Admin.calls w ++ [Admin.Read q])%list in
     (exists a w', Admin.FirebaseCollection.get c w = (Ok a, w') /\ one_read w') /\
     (exists a w', Admin.FirebaseTable.findAll tb w = (Ok a, w') /\ one_read w') /\
     (exists a w', Admin.FirebaseTable.findById tb id w = (Ok a, w') /\ one_read w') /\
     (exists a w', Admin.FirebaseTable.findByChild tb key v w = (Ok a, w') /\ one_read w') /\
     (exists a w', Admin.FirebaseTable.filterByChild tb key v w = (Ok a, w') /\ one_read w')).
Proof.
  split.
  - intros c tb id key v w one_get.
    split; [| split; [| split; [| split]]].
    + destruct (get_run (Rest.FirebaseCollection.database c)
                  (Rest.FirebaseCollection.name c) w) as (w' & Hrun & Hreq & Hst).
      do 2 eexists. split; [exact Hrun |]. split; [exact Hst |].
      eexists. split; [exact Hreq |]. split; reflexivity.
    + destruct (rest_findAll_run tb w) as (w' & Hrun & Hreq & Hst).
      do 2 eexists. split; [exact Hrun |]. split; [exact Hst |].
      eexists. split; [exact Hreq |]. split; reflexivity.
    + destruct (table_findById_run tb id w) as (w' & Hrun & Hreq & Hst).
      do 2 eexists. split; [exact Hrun |]. split; [exact Hst |].
      eexists. split; [exact Hreq |]. split; reflexivity.
    + destruct (rest_filterByChild_run tb key v w) as (w' & _ & Hrun & Hreq & Hst).
      do 2 eexists. split; [exact Hrun |]. split; [exact Hst |].
      eexists. split; [exact Hreq |]. split; reflexivity.
    + destruct (rest_filterByChild_run tb key v w) as (w' & Hrun & _ & Hreq & Hst).
      do 2 eexists. split; [exact Hrun |]. split; [exact Hst |].
      eexists. split; [exact Hreq |]. split; reflexivity.
  - intros c tb id key v w one_read.
    repeat split; do 2 eexists; (split; [reflexivity |]);
      (split; [reflexivity |]); (split; [reflexivity |]); eexists; reflexivity.
Qed.

(** X8.  [delete] and [deleteById] return normally after exactly one
    request, the bodiless [DELETE] of the bound path (of [path/id] for
    [deleteById]); over [firebase-admin], the one call [ref.remove()].  They
    do not read first, so they do the same whether or not anything is
    stored there. *)
Theorem delete_sends_one_delete :
  (forall (c : Rest.FirebaseCollection.t) (w : FirebaseSDK.world),
     let r := FirebaseSDK.delete_request (Rest.FirebaseCollection.database c)
                (Rest.FirebaseCollection.name c) (FirebaseSDK.current_token w) in
     exists w', Rest.FirebaseCollection.delete c w = (Ok tt, w') /\
                FirebaseSDK.requests w' = (FirebaseSDK.requests w ++ [r])%list /\
                method r = DELETE /\ body r = None /\
                FirebaseSDK.store w' = snd (store_write r (FirebaseSDK.store w))) /\
  (forall (tb : Rest.FirebaseTable.t) (id : string) (w : FirebaseSDK.world),
     let r := FirebaseSDK.delete_request (Rest.FirebaseTable.database tb)
                (Rest.FirebaseTable.name tb ++ "/" ++ id) (FirebaseSDK.current_token w) in
     exists w', Rest.FirebaseTable.deleteById tb id w = (Ok tt, w') /\
                FirebaseSDK.requests w' = (FirebaseSDK.requests w ++ [r])%list /\
                method r = DELETE /\ body r = None /\
                FirebaseSDK.store w' = snd (store_write r (FirebaseSDK.store w))) /\
  (forall (c : Admin.FirebaseCollection.t) (w : Admin.world),
     let op := Admin.RefRemove (Admin.FirebaseCollection.name c) in
     exists w', Admin.FirebaseCollection.delete c w = (Ok tt, w') /\
                Admin.calls w' = (Admin.calls w ++ [Admin.Write op])%list /\
                Admin.store w' = Admin.db_apply op (Admin.store w)) /\
  (forall (tb : Admin.FirebaseTable.t) (id : string) (w : Admin.world),
     let op := Admin.RefRemove (Admin.FirebaseTable.name tb ++ "/" ++ id) in
     exists w', Admin.FirebaseTable.deleteById tb id w = (Ok tt, w') /\
                Admin.calls w' = (Admin.calls w ++ [Admin.Write op])%list /\
                Admin.store w' = Admin.db_apply op (Admin.store w)).
Proof.
  split; [| split; [| split]].
  - intros c w r.
    destruct (delete_run (Rest.FirebaseCollection.database c)
                (Rest.FirebaseCollection.name c) w) as (w' & Hrun & Hreq & Hst).
    exists w'. repeat split; assumption.
  - intros tb id w r.
    destruct (delete_run (Rest.FirebaseTable.database tb)
                (Rest.FirebaseTable.name tb ++ "/" ++ id) w) as (w' & Hrun & Hreq & Hst).
    exists w'. repeat split; assumption.
  - intros c w op. eexists. repeat split.
  - intros tb id w op. eexists. repeat split.
Qed.

End AccessorReadsAndDeletes.

Lemma create_invalid_raises_before_transport_witness :
  let E := Examples.scripted VNull VNull in
  let A := Examples.scripted_admin (Admin.mkSnapshot false VNull) in
  Admin.FirebaseTable.create (Admin.FirebaseTable.mk Examples.price_schema "products")
    Examples.negative_product (Admin.initial (E := A) O)
  = (Thrown (ZodError ["price: too small"]), Admin.initial (E := A) O) /\
  Rest.FirebaseTable.create
    (Rest.FirebaseTable.mk Examples.sdk Examples.price_schema "products")
    (VStr "pen") (FirebaseSDK.initial (E := E) O)
  = (Thrown (ZodError ["expected object"]), FirebaseSDK.initial (E := E) O).
Proof.
  intros E A. split.
  - apply (proj2 (create_invalid_raises_before_transport (E := E) (A := A)
                    Examples.price_schema Examples.negative_product
                    ["price: too small"] eq_refl)).
  - apply (proj1 (create_invalid_raises_before_transport (E := E) (A := A)
                    Examples.price_schema (VStr "pen") ["expected object"] eq_refl)).
Defined.

(** ** Rows and their ids *)

Lemma assoc_obj_set_other (k k' : string) (x : value) (o : object) :
  k <> k' -> assoc k (obj_set k' x o) = assoc k o.
Proof.
  intros Hne. induction o as [| [k0 y] o IH]; cbn.
  - destruct (String.eqb_spec k k'); [contradiction | reflexivity].
  - destruct (String.eqb_spec k' k0) as [-> | Hk0]; cbn.
    + destruct (String.eqb_spec k k0); [contradiction | reflexivity].
    + destruct (String.eqb_spec k k0); [reflexivity | exact IH].
Qed.

(** Apart from [_id], the row [{ ...v, _id }] has the properties of [v]. *)
Lemma spread_with_id_other (v : value) (_id : option string) (k : string) :
  k <> "_id" -> get_prop (spread_with_id v _id) k = get_prop v k.
Proof.
  intros Hne. unfold get_prop, spread_with_id. cbn [own_entries].
  now rewrite assoc_obj_set_other.
Qed.

Lemma filter_obj_set_absent (k : string) (x : value) (o : object) :
  assoc k o = None ->
  filter (fun p => negb (k =? fst p)%string) (obj_set k x o) = o.
Proof.
  induction o as [| [k0 y] o IH]; cbn; intros Hnone.
  - now rewrite String.eqb_refl.
  - destruct (String.eqb_spec k k0) as [-> | Hk0]; [discriminate |].
    cbn. destruct (String.eqb_spec k k0); [contradiction |]. cbn.
    now rewrite IH.
Qed.

(** Tagging a stored row with its id and taking the id off again gives the
    stored row back, when the stored row has no property [_id] of its own. *)
Lemma rest_without_spread (v : value) (_id : option string) :
  assoc "_id" (own_entries v) = None ->
  rest_without "_id" (spread_with_id v _id) = own_entries v.
Proof.
  intros Hnone. unfold rest_without, spread_with_id. cbn [own_entries].
  now apply filter_obj_set_absent.
Qed.

Lemma rows_tagged (snapshot : value) (keys : list string) :
  Forall2 (fun id row =>
             get_prop row "_id" = VStr id /\
             forall k, k <> "_id" -> get_prop row k = get_prop (get_prop snapshot id) k)
          keys
          (map (fun _id => spread_with_id (get_prop snapshot _id) (Some _id)) keys).
Proof.
  induction keys as [| id keys IH]; cbn; constructor; [| exact IH].
  split; [apply spread_with_id_id |]. intros k Hk. now apply spread_with_id_other.
Qed.

Section Rows.
Context {E : Environment} {A : Admin.Environment}.

(** X9.  [findAll] and [filterByChild] return one row per key of the value
    read, in the order of the keys.  Each row carries its key as [_id],
    masking a stored property of that name, and has every other property
    as stored.  When the value read is falsy (REST) or the snapshot does not
    exist ([firebase-admin]), the result is the empty list, not an error. *)
Theorem rows_carry_their_keys :
  (forall (tb : Rest.FirebaseTable.t) (key : string) (v : value) (w : FirebaseSDK.world),
     let tagged := fun (snapshot : value) (result : list value) =>
       (truthy snapshot = false -> result = []) /\
       (truthy snapshot = true ->
        Forall2 (fun id row =>
                   get_prop row "_id" = VStr id /\
                   forall k, k <> "_id" ->
                             get_prop row k = get_prop (get_prop snapshot id) k)
                (Object_keys snapshot) result) in
     (exists result,
        fst (Rest.FirebaseTable.findAll tb w) = Ok result /\
        tagged (store_read (FirebaseSDK.store w)
                  (FirebaseSDK.get_request (Rest.FirebaseTable.database tb)
                     (Rest.FirebaseTable.name tb) (FirebaseSDK.current_token w)))
               result) /\
     (exists result,
        fst (Rest.FirebaseTable.filterByChild tb key v w) = Ok result /\
        tagged (store_read (FirebaseSDK.store w)
                  (FirebaseSDK.orderBy_request (Rest.FirebaseTable.database tb)
                     (Rest.FirebaseTable.name tb) (Rest.FirebaseTable.child_query key v)
                     (FirebaseSDK.current_token w)))
               result)) /\
  (forall (tb : Admin.FirebaseTable.t) (key : string) (v : value) (w : Admin.world),
     let tagged := fun (s : Admin.snapshot) (result : list value) =>
       (Admin.snapshot_exists s = false -> result = []) /\
       (Admin.snapshot_exists s = true ->
        Forall2 (fun id row =>
                   get_prop row "_id" = VStr id /\
                   forall k, k <> "_id" ->
                             get_prop row k = get_prop (get_prop (Admin.snapshot_val s) id) k)
                (Object_keys (Admin.snapshot_val s)) result) in
     (exists result,
        fst (Admin.FirebaseTable.findAll tb w) = Ok result /\
        tagged (Admin.db_snapshot (Admin.store w) (Admin.RefGet (Admin.FirebaseTable.name tb)))
               result) /\
     (exists result,
        fst (Admin.FirebaseTable.filterByChild tb key v w) = Ok result /\
        tagged (Admin.db_snapshot (Admin.store w)
                  (Admin.QueryGet (Admin.FirebaseTable.name tb) key v))
               result)).
Proof.
  split.
  - intros tb key v w tagged. split.
    + destruct (rest_findAll_run tb w) as (w1 & Hrun & _).
      eexists. rewrite Hrun. split; [reflexivity |]. split; intros Ht; rewrite Ht.
      * reflexivity.
      * apply rows_tagged.
    + destruct (rest_filterByChild_run tb key v w) as (w1 & Hrun & _).
      eexists. rewrite Hrun. split; [reflexivity |]. split; intros Ht; rewrite Ht.
      * reflexivity.
      * apply rows_tagged.
  - intros tb key v w tagged. split.
    + eexists. split; [reflexivity |]. cbn. split; intros Ht; rewrite Ht.
      * reflexivity.
      * apply rows_tagged.
    + eexists. split; [reflexivity |]. cbn. split; intros Ht; rewrite Ht.
      * reflexivity.
      * apply rows_tagged.
Qed.

(** X10.  [findByChild] and [filterByChild] send the same request.  When
    [filterByChild] returns rows, [findByChild] returns the first of them.
    When [filterByChild] returns none, [findByChild] returns [undefined] or,
    for a truthy answer without keys, the row [{ _id: undefined }]; over
    [firebase-admin] the same with the snapshot's existence in place of
    truthiness. *)
Theorem findByChild_is_first_of_filterByChild :
  (forall (tb : Rest.FirebaseTable.t) (key : string) (v : value) (w : FirebaseSDK.world),
     snd (Rest.FirebaseTable.findByChild tb key v w)
     = snd (Rest.FirebaseTable.filterByChild tb key v w) /\
     (forall row others,
        fst (Rest.FirebaseTable.filterByChild tb key v w) = Ok (row :: others) ->
        fst (Rest.FirebaseTable.findByChild tb key v w) = Ok row) /\
     (fst (Rest.FirebaseTable.filterByChild tb key v w) = Ok [] ->
      fst (Rest.FirebaseTable.findByChild tb key v w) = Ok VUndefined \/
      fst (Rest.FirebaseTable.findByChild tb key v w) = Ok (VObj [("_id", VUndefined)]))) /\
  (forall (tb : Admin.FirebaseTable.t) (key : string) (v : value) (w : Admin.world),
     snd (Admin.FirebaseTable.findByChild tb key v w)
     = snd (Admin.FirebaseTable.filterByChild tb key v w) /\
     (forall row others,
        fst (Admin.FirebaseTable.filterByChild tb key v w) = Ok (row :: others) ->
        fst (Admin.FirebaseTable.findByChild tb key v w) = Ok row) /\
     (fst (Admin.FirebaseTable.filterByChild tb key v w) = Ok [] ->
      fst (Admin.FirebaseTable.findByChild tb key v w) = Ok VUndefined \/
      fst (Admin.FirebaseTable.findByChild tb key v w) = Ok (VObj [("_id", VUndefined)]))).
Proof.
  assert (Hfirst : forall snapshot row others,
             map (fun _id => spread_with_id (get_prop snapshot _id) (Some _id))
                 (Object_keys snapshot) = row :: others ->
             spread_with_id (get_prop snapshot (string_or_undefined (first_key snapshot)))
                            (first_key snapshot) = row).
  { intros snapshot row others. unfold first_key.
    destruct (Object_keys snapshot) as [| id keys]; cbn; [discriminate |].
    intros H. now injection H. }
  assert (Hnone : forall snapshot,
             map (fun _id => spread_with_id (get_prop snapshot _id) (Some _id))
                 (Object_keys snapshot) = [] ->
             spread_with_id (get_prop snapshot (string_or_undefined (first_key snapshot)))
                            (first_key snapshot) = VObj [("_id", VUndefined)]).
  { intros snapshot. unfold first_key, Object_keys, get_prop.
    destruct (own_entries snapshot) as [| [id x] rest]; cbn; [reflexivity | discriminate]. }
  split.
  - intros tb key v w.
    destruct (rest_filterByChild_run tb key v w) as (w1 & Hfilter & Hfind & _).
    rewrite Hfilter, Hfind. cbn [fst snd]. split; [reflexivity |].
    match goal with |- context [truthy ?s] => destruct (truthy s) end; split.
    + intros row others H. injection H as H. f_equal. exact (Hfirst _ _ _ H).
    + intros H. injection H as H. right. f_equal. exact (Hnone _ H).
    + intros row others H. discriminate.
    + intros _. now left.
  - intros tb key v w. cbn. split; [reflexivity |].
    destruct (Admin.snapshot_exists _); split.
    + intros row others H. injection H as H. f_equal. exact (Hfirst _ _ _ H).
    + intros H. injection H as H. right. f_equal. exact (Hnone _ H).
    + intros row others H. discriminate.
    + intros _. now left.
Qed.

End Rows.

(** ** Transitions that write *)

Lemma filter_obj_set_other (k k' : string) (x : value) (o : object) :
  k <> k' ->
  filter (fun p => negb (k =? fst p)%string) (obj_set k' x o)
  = obj_set k' x (filter (fun p => negb (k =? fst p)%string) o).
Proof.
  intros Hne. induction o as [| [k0 y] o IH]; cbn.
  - destruct (String.eqb_spec k k'); [contradiction | reflexivity].
  - destruct (String.eqb_spec k' k0) as [-> | Hk0]; cbn.
    + destruct (String.eqb_spec k k0); [contradiction |]. cbn.
      now rewrite String.eqb_refl.
    + destruct (String.eqb_spec k k0); cbn.
      * exact IH.
      * destruct (String.eqb_spec k' k0); [contradiction |]. now rewrite IH.
Qed.

Lemma filter_absent (k : string) (o : object) :
  assoc k o = None -> filter (fun p => negb (k =? fst p)%string) o = o.
Proof.
  induction o as [| [k0 y] o IH]; cbn; intros Hnone; [reflexivity |].
  destruct (String.eqb_spec k k0); [discriminate |]. cbn. now rewrite IH.
Qed.

(** The updater [row => ({ ...row, [k]: x })] applied to a tagged row: the
    [_id] is the row's, the rest is the stored row with [k] set to [x]. *)
Lemma override_of_tagged_row (o : object) (_id : option string) (k : string) (x : value) :
  k <> "_id" -> assoc "_id" o = None ->
  let row := spread_with_id (VObj o) _id in
  let update := VObj (obj_set k x (own_entries row)) in
  get_prop update "_id" = key_value _id /\
  rest_without "_id" update = obj_set k x o.
Proof.
  intros Hk Hnone row update. split.
  - unfold update, get_prop. cbn [own_entries row spread_with_id].
    rewrite assoc_obj_set_other by (intros H; now apply Hk).
    now rewrite assoc_obj_set.
  - unfold update, rest_without. cbn [own_entries row spread_with_id].
    rewrite filter_obj_set_other by (intros H; now apply Hk).
    now rewrite filter_obj_set_absent.
Qed.

Section WritingTransitions.
Context {E : Environment} {A : Admin.Environment}.

Lemma first_entry_is_found (snapshot : value) (id : string) (row : value)
    (others : object) :
  own_entries snapshot = (id, row) :: others ->
  first_key snapshot = Some id /\ get_prop snapshot id = row.
Proof.
  intros He. unfold first_key, Object_keys, get_prop. rewrite He. cbn.
  now rewrite String.eqb_refl.
Qed.

Lemma first_entry_truthy (snapshot : value) (id : string) (o : object) (others : object) :
  own_entries snapshot = (id, VObj o) :: others -> truthy snapshot = true.
Proof.
  destruct snapshot as [| | b | n | s | l | o']; cbn; try discriminate; try reflexivity.
  destruct s; cbn; [discriminate | reflexivity].
Qed.

(** X11.  [transitionByChild] with an updater of the form
    [row => ({ ...row, [k]: x })], where [k] is not [_id] and is not made
    of digits only: when the first entry of the lookup's answer is the key
    [id] with a stored row that is an object without a property [_id], the
    one write that follows the lookup is the merge, at the table path
    joined with [id], of the stored row with [k] set to [x]; the [_id] tag
    is not sent. *)
Theorem override_updater_merges_the_found_row (k : string) (x : value) :
  k <> "_id" ->
  Runs.digits_only k = false ->
  let fu := fun row : value => VObj (obj_set k x (own_entries row)) in
  (forall (tb : Rest.FirebaseTable.t) (key : string) (v : value) (w : FirebaseSDK.world)
          (id : string) (o others : object),
     let db := Rest.FirebaseTable.database tb in
     let g := FirebaseSDK.orderBy_request db (Rest.FirebaseTable.name tb)
                (Rest.FirebaseTable.child_query key v) (FirebaseSDK.current_token w) in
     let snapshot := store_read (FirebaseSDK.store w) g in
     own_entries snapshot = (id, VObj o) :: others -> assoc "_id" o = None ->
     exists w1 w2,
       snd (Rest.FirebaseTable.findByChild tb key v w) = w1 /\
       Rest.FirebaseTable.transitionByChild tb key v fu w = (Ok tt, w2) /\
       FirebaseSDK.requests w2 =
         (FirebaseSDK.requests w ++
          [g; FirebaseSDK.update_request db (Rest.FirebaseTable.name tb ++ "/" ++ id)
                (VObj (obj_set k x o)) (FirebaseSDK.current_token w1)])%list) /\
  (forall (tb : Admin.FirebaseTable.t) (key : string) (v : value) (w : Admin.world)
          (id : string) (o others : object),
     let q := Admin.QueryGet (Admin.FirebaseTable.name tb) key v in
     let s := Admin.db_snapshot (Admin.store w) q in
     Admin.snapshot_exists s = true ->
     own_entries (Admin.snapshot_val s) = (id, VObj o) :: others -> assoc "_id" o = None ->
     exists w2,
       Admin.FirebaseTable.transitionByChild tb key v fu w = (Ok tt, w2) /\
       Admin.calls w2 =
         (Admin.calls w ++
          [Admin.Read q;
           Admin.Write (Admin.RefUpdate (Admin.FirebaseTable.name tb ++ "/" ++ id)
                          (VObj (obj_set k x o)))])%list).
Proof.
  intros Hk _ fu. split.
  - intros tb key v w id o others db g snapshot Hentries Hnone.
    destruct (first_entry_is_found _ _ _ _ Hentries) as [Hfirst Hrow].
    pose proof (first_entry_truthy _ _ _ _ Hentries) as Ht.
    destruct (table_findByChild_run tb key v w) as (w1 & Hfind & Hreq & _).
    fold db g snapshot in Hfind, Hreq. rewrite Ht, Hfirst in Hfind.
    cbn [string_or_undefined] in Hfind. rewrite Hrow in Hfind.
    destruct (override_of_tagged_row o (Some id) k x Hk Hnone) as [Hid Hrest].
    cbv zeta in Hid, Hrest.
    rewrite (table_transitionByChild_after _ _ _ _ _ _ _ Hfind).
    cbn [truthy andb]. unfold fu at 1. cbn [truthy].
    unfold fu. rewrite Hid, Hrest. cbn [key_value to_string].
    match goal with
    | |- context [FirebaseSDK.update ?d ?p ?y w1] =>
        destruct (update_run d p y w1) as (w2 & Hrun & Hreq2 & _)
    end.
    exists w1, w2. split; [now rewrite Hfind |]. split; [exact Hrun |].
    rewrite Hreq2, Hreq, <- app_assoc. reflexivity.
  - intros tb key v w id o others q s Hex Hentries Hnone.
    destruct (first_entry_is_found _ _ _ _ Hentries) as [Hfirst Hrow].
    pose proof (admin_findByChild_run tb key v w) as Hfind. cbv zeta in Hfind.
    fold q s in Hfind. rewrite Hex, Hfirst in Hfind.
    cbn [string_or_undefined] in Hfind. rewrite Hrow in Hfind.
    destruct (override_of_tagged_row o (Some id) k x Hk Hnone) as [Hid Hrest].
    cbv zeta in Hid, Hrest.
    rewrite (admin_transitionByChild_after _ _ _ _ _ _ _ Hfind).
    cbn [truthy andb]. unfold fu at 1. cbn [truthy].
    unfold fu. rewrite Hid, Hrest. cbn [key_value to_string].
    eexists. split; [reflexivity |]. cbn. now rewrite <- app_assoc.
Qed.

(** X12.  When [transitionById] finds a value for the id and the updater's
    result is truthy, the one write that follows the lookup is the merge of
    that result as a whole at the table path joined with the id that was
    passed in: a property [_id] in the result is neither taken off nor used
    for the path. *)
Theorem transitionById_merges_at_the_given_id (fu : value -> value) :
  (forall (tb : Rest.FirebaseTable.t) (id : string) (w : FirebaseSDK.world),
     exists legacy w1,
       Rest.FirebaseTable.findById tb id w = (Ok legacy, w1) /\
       (truthy legacy = true -> truthy (fu legacy) = true ->
        exists w2,
          Rest.FirebaseTable.transitionById tb id fu w = (Ok tt, w2) /\
          FirebaseSDK.requests w2 =
            (FirebaseSDK.requests w1 ++
             [FirebaseSDK.update_request (Rest.FirebaseTable.database tb)
                (Rest.FirebaseTable.name tb ++ "/" ++ id) (fu legacy)
                (FirebaseSDK.current_token w1)])%list)) /\
  (forall (tb : Admin.FirebaseTable.t) (id : string) (w : Admin.world),
     exists legacy w1,
       Admin.FirebaseTable.findById tb id w = (Ok legacy, w1) /\
       (truthy legacy = true -> truthy (fu legacy) = true ->
        exists w2,
          Admin.FirebaseTable.transitionById tb id fu w = (Ok tt, w2) /\
          Admin.calls w2 =
            (Admin.calls w1 ++
             [Admin.Write (Admin.RefUpdate (Admin.FirebaseTable.name tb ++ "/" ++ id)
                             (fu legacy))])%list)).
Proof.
  split.
  - intros tb id w.
    destruct (table_findById_run tb id w) as (w1 & Hfind & _).
    do 2 eexists. split; [exact Hfind |]. intros Hl Hu.
    rewrite (table_transitionById_after _ _ _ _ _ _ Hfind), Hl, Hu. cbn [andb].
    match goal with
    | |- context [FirebaseSDK.update ?d ?p ?y w1] =>
        destruct (update_run d p y w1) as (w2 & Hrun & Hreq2 & _)
    end.
    exists w2. split; [exact Hrun | exact Hreq2].
  - intros tb id w. pose proof (admin_findById_run tb id w) as Hfind. cbv zeta in Hfind.
    do 2 eexists. split; [exact Hfind |]. intros Hl Hu.
    rewrite (admin_transitionById_after _ _ _ _ _ _ Hfind), Hl, Hu. cbn [andb].
    eexists. split; reflexivity.
Qed.

End WritingTransitions.

Lemma override_updater_merges_the_found_row_witness :
  let two_rows := VObj [("r1", Examples.product); ("r2", VObj [("price", VNum 5)])] in
  let E1 := Examples.scripted two_rows VNull in
  let A1 := Examples.scripted_admin (Admin.mkSnapshot true two_rows) in
  let fu := fun row : value => VObj (obj_set "price" (VNum 2) (own_entries row)) in
  let tb := Rest.FirebaseTable.mk Examples.sdk Examples.price_schema "products" in
  let ta := Admin.FirebaseTable.mk Examples.price_schema "products" in
  (exists w2,
     Rest.FirebaseTable.transitionByChild tb "price" (VNum 1) fu
       (FirebaseSDK.initial (E := E1) O) = (Ok tt, w2) /\
     map url (FirebaseSDK.requests w2)
     = [ "https://example.firebaseio.com/products.json?orderBy=%22price%22&equalTo=1";
         "https://example.firebaseio.com/products/r1.json" ] /\
     map body (FirebaseSDK.requests w2) = [None; JSON_stringify (VObj [("price", VNum 2)])]) /\
  (exists w2,
     Admin.FirebaseTable.transitionByChild ta "price" (VNum 1) fu
       (Admin.initial (E := A1) O) = (Ok tt, w2) /\
     Admin.calls w2
     = [ Admin.Read (Admin.QueryGet "products" "price" (VNum 1));
         Admin.Write (Admin.RefUpdate "products/r1" (VObj [("price", VNum 2)])) ]).
Proof.
  intros two_rows E1 A1 fu tb ta.
  assert (Hk : "price" <> "_id") by discriminate.
  destruct (override_updater_merges_the_found_row (E := E1) (A := A1)
              "price" (VNum 2) Hk eq_refl) as [Hrest Hadmin].
  split.
  - destruct (Hrest tb "price" (VNum 1) (FirebaseSDK.initial (E := E1) O) "r1"
                [("price", VNum 1)] [("r2", VObj [("price", VNum 5)])] eq_refl eq_refl)
      as (w1 & w2 & Hw1 & Hrun & Hreq).
    exists w2. split; [exact Hrun |].
    rewrite Hreq, <- Hw1. split; reflexivity.
  - destruct (Hadmin ta "price" (VNum 1) (Admin.initial (E := A1) O) "r1"
                [("price", VNum 1)] [("r2", VObj [("price", VNum 5)])]
                eq_refl eq_refl eq_refl)
      as (w2 & Hrun & Hcalls).
    exists w2. split; [exact Hrun | exact Hcalls].
Defined.

(** ** Literals and encodings of the filtered read *)

Lemma json_escape_char_cases (c : ascii) :
  (Runs.json_plain c = true /\ json_escape_char c = String c EmptyString) \/
  (Runs.json_plain c = false /\ (2 <=? String.length (json_escape_char c))%nat = true).
Proof.
  destruct c as [b0 b1 b2 b3 b4 b5 b6 b7].
  destruct b0, b1, b2, b3, b4, b5, b6, b7;
    ((left; split; reflexivity) || (right; split; reflexivity)).
Qed.

Lemma json_escape_plain (s : string) :
  Runs.string_forall Runs.json_plain s = true -> json_escape s = s.
Proof.
  induction s as [| c s IH]; cbn; [reflexivity |].
  intros H. apply andb_true_iff in H as [Hc Hs].
  destruct (json_escape_char_cases c) as [[_ He] | [Hf _]]; [| congruence].
  rewrite He, IH by assumption. reflexivity.
Qed.

Lemma json_escape_same_length (s : string) :
  String.length (json_escape s) = String.length s ->
  Runs.string_forall Runs.json_plain s = true.
Proof.
  induction s as [| c s IH]; cbn; [reflexivity |].
  rewrite length_append. intros Hlen.
  pose proof (json_escape_length s) as Hrest.
  destruct (json_escape_char_cases c) as [[Hp He] | [_ Hlong]].
  - rewrite Hp. rewrite He in Hlen. cbn in Hlen. apply IH. lia.
  - apply Nat.leb_le in Hlong. lia.
Qed.

(** X13.  The literal [orderBy] emits for a string parameter, the string
    between two double quotes, is the JSON encoding of the string exactly
    when the string has no double quote, no backslash and no control
    character; for any other string the two differ. *)
Theorem string_literal_is_json_iff_plain (s : string) :
  Some (FirebaseSDK.query_value (VStr s)) = JSON_stringify (VStr s) <->
  Runs.string_forall Runs.json_plain s = true.
Proof.
  change (JSON_stringify (VStr s)) with (Some (json_quote s)).
  unfold FirebaseSDK.query_value, json_quote. split.
  - intros H. injection H as H. apply json_escape_same_length.
    apply (f_equal String.length) in H. rewrite !length_append in H. lia.
  - intros H. now rewrite json_escape_plain.
Qed.

Lemma string_literal_is_json_iff_plain_witness :
  Some (FirebaseSDK.query_value (VStr "Laptop Pro")) = JSON_stringify (VStr "Laptop Pro") /\
  Some (FirebaseSDK.query_value (VStr ("6" ++ dquote ++ " nail")))
  <> JSON_stringify (VStr ("6" ++ dquote ++ " nail")).
Proof.
  split.
  - apply (proj2 (string_literal_is_json_iff_plain "Laptop Pro")). reflexivity.
  - intros H. apply (proj1 (string_literal_is_json_iff_plain _)) in H. discriminate H.
Defined.

Lemma form_decode_encode_char (c : ascii) (rest : string) :
  Runs.form_decode (FirebaseSDK.form_encode_char c ++ rest)
  = option_map (String c) (Runs.form_decode rest).
Proof.
  destruct c as [b0 b1 b2 b3 b4 b5 b6 b7].
  destruct b0, b1, b2, b3, b4, b5, b6, b7;
    (reflexivity || (cbn; destruct (Runs.form_decode rest); reflexivity)).
Qed.

Lemma form_encode_char_safe (c : ascii) :
  Runs.string_forall Runs.form_safe (FirebaseSDK.form_encode_char c) = true.
Proof.
  destruct c as [b0 b1 b2 b3 b4 b5 b6 b7].
  destruct b0, b1, b2, b3, b4, b5, b6, b7; reflexivity.
Qed.

Lemma string_forall_app (p : ascii -> bool) (s1 s2 : string) :
  Runs.string_forall p (s1 ++ s2)
  = Runs.string_forall p s1 && Runs.string_forall p s2.
Proof.
  induction s1 as [| c s1 IH]; cbn; [reflexivity |].
  now rewrite IH, andb_assoc.
Qed.

Lemma form_decode_encode (s : string) :
  Runs.form_decode (FirebaseSDK.form_encode s) = Some s.
Proof.
  induction s as [| c s IH]; cbn [FirebaseSDK.form_encode]; [reflexivity |].
  now rewrite form_decode_encode_char, IH.
Qed.

Lemma form_encode_safe (s : string) :
  Runs.string_forall Runs.form_safe (FirebaseSDK.form_encode s) = true.
Proof.
  induction s as [| c s IH]; cbn [FirebaseSDK.form_encode]; [reflexivity |].
  now rewrite string_forall_app, form_encode_char_safe, IH.
Qed.

(** X14.  The query string [findByChild] and [filterByChild] send is
    [orderBy=] and [&equalTo=] followed by the form encodings of the quoted
    field name and of the value's literal.  An encoding consists of
    letters, digits and [* - . _ + %] only, so it holds no raw double quote,
    space, [&] or [=]; decoding it gives the literal back, so different
    literals are sent differently. *)
Theorem child_query_string_is_faithful (key : string) (v : value) :
  let name_literal := dquote ++ key ++ dquote in
  let value_literal := FirebaseSDK.query_value v in
  FirebaseSDK.params_toString
    (FirebaseSDK.query_params (Rest.FirebaseTable.child_query key v))
  = "orderBy=" ++ FirebaseSDK.form_encode name_literal
    ++ "&equalTo=" ++ FirebaseSDK.form_encode value_literal /\
  Runs.string_forall Runs.form_safe (FirebaseSDK.form_encode name_literal) = true /\
  Runs.string_forall Runs.form_safe (FirebaseSDK.form_encode value_literal) = true /\
  Runs.form_decode (FirebaseSDK.form_encode name_literal) = Some name_literal /\
  Runs.form_decode (FirebaseSDK.form_encode value_literal) = Some value_literal /\
  (forall s1 s2, FirebaseSDK.form_encode s1 = FirebaseSDK.form_encode s2 -> s1 = s2).
Proof.
  intros name_literal value_literal.
  split; [| split; [| split; [| split; [| split]]]].
  - rewrite query_params_entries.
    + unfold FirebaseSDK.params_toString. cbn [map fst snd join Rest.FirebaseTable.child_query].
      fold value_literal.
      change (FirebaseSDK.query_value (VStr key)) with name_literal.
      change (FirebaseSDK.form_encode "orderBy") with "orderBy".
      change (FirebaseSDK.form_encode "equalTo") with "equalTo".
      generalize (FirebaseSDK.form_encode name_literal) as a.
      generalize (FirebaseSDK.form_encode value_literal) as b.
      intros b a. reflexivity.
    + repeat constructor; cbn; intuition discriminate.
  - apply form_encode_safe.
  - apply form_encode_safe.
  - apply form_decode_encode.
  - apply form_decode_encode.
  - intros s1 s2 H. apply (f_equal Runs.form_decode) in H.
    rewrite !form_decode_encode in H. now injection H.
Qed.

(** ** What a write carries *)

Lemma JSON_stringify_drops_undefined (o : object) :
  JSON_stringify (VObj o)
  = JSON_stringify
      (VObj (filter (fun p => match snd p with VUndefined => false | _ => true end) o)).
Proof.
  cbn [JSON_stringify].
  match goal with
  | |- Some (_ ++ join _ (?m o) ++ _) = _ =>
      assert (Hm : m o
                   = m (filter (fun p => match snd p with
                                         | VUndefined => false
                                         | _ => true
                                         end) o))
  end.
  { induction o as [| [k x] o IH]; [reflexivity |].
    destruct x as [| | [|] | n | s | l | o']; cbn [filter snd JSON_stringify];
      rewrite IH; reflexivity. }
  now rewrite <- Hm.
Qed.

Section WriteContents.
Context {E : Environment} {A : Admin.Environment}.

(** X15.  [set] on a value the schema accepts writes what [parse] returned,
    not the value passed in: the one request is the PUT of the parsed data
    at the bound path ([ref.set] of the parsed data over
    [firebase-admin]), and the call returns normally. *)
Theorem set_writes_the_parsed_data (s : Zod.schema) (v data : value) :
  s v = Zod.Parsed data ->
  (forall (db : FirebaseSDK.t) (name : string) (w : FirebaseSDK.world),
     let r := FirebaseSDK.set_request db name data (FirebaseSDK.current_token w) in
     exists w',
       Rest.FirebaseCollection.set (Rest.FirebaseCollection.mk db s name) v w = (Ok tt, w') /\
       FirebaseSDK.requests w' = (FirebaseSDK.requests w ++ [r])%list /\
       body r = FirebaseSDK.body_of data /\
       FirebaseSDK.store w' = snd (store_write r (FirebaseSDK.store w))) /\
  (forall (name : string) (w : Admin.world),
     exists w',
       Admin.FirebaseCollection.set (Admin.FirebaseCollection.mk s name) v w = (Ok tt, w') /\
       Admin.calls w' = (Admin.calls w ++ [Admin.Write (Admin.RefSet name data)])%list /\
       Admin.store w' = Admin.db_apply (Admin.RefSet name data) (Admin.store w)).
Proof.
  intros Hok. split.
  - intros db name w r. rewrite collection_set_run. cbn. rewrite Hok.
    destruct (set_run db name data w) as (w' & Hrun & Hreq & Hst).
    exists w'. repeat split; assumption.
  - intros name w. rewrite admin_set_run. cbn. rewrite Hok.
    eexists. repeat split.
Qed.

(** X16.  A property whose value is [undefined] is left out of the body of
    a write: [set], [update] and [push] send, for an object, the same body
    as for the object without its [undefined]-valued properties. *)
Theorem undefined_properties_are_not_sent
    (sdk : FirebaseSDK.t) (path tok : string) (o : object) :
  let defined := filter (fun p => match snd p with VUndefined => false | _ => true end) o in
  body (FirebaseSDK.set_request sdk path (VObj o) tok)
  = body (FirebaseSDK.set_request sdk path (VObj defined) tok) /\
  body (FirebaseSDK.update_request sdk path (VObj o) tok)
  = body (FirebaseSDK.update_request sdk path (VObj defined) tok) /\
  body (FirebaseSDK.push_request sdk path (VObj o) tok)
  = body (FirebaseSDK.push_request sdk path (VObj defined) tok) /\
  (forall k, assoc k defined <> Some VUndefined).
Proof.
  intros defined. pose proof (JSON_stringify_drops_undefined o) as H.
  fold defined in H. do 3 (split; [exact H |]).
  clear H. intros k. subst defined. induction o as [| [k0 x] o IH]; [cbn; discriminate |].
  destruct x; cbn [filter snd assoc]; try exact IH;
    (destruct (k =? k0)%string; [discriminate | exact IH]).
Qed.

End WriteContents.

Lemma set_writes_the_parsed_data_witness :
  let E := Examples.scripted VNull VNull in
  let A := Examples.scripted_admin (Admin.mkSnapshot false VNull) in
  let v := VObj [("note", VStr "extra"); ("price", VNum 1)] in
  exists w',
    Admin.FirebaseCollection.set (Admin.FirebaseCollection.mk Examples.price_schema "item") v
      (Admin.initial (E := A) O) = (Ok tt, w') /\
    Admin.calls w' = [Admin.Write (Admin.RefSet "item" (VObj [("price", VNum 1)]))].
Proof.
  intros E A v.
  destruct (proj2 (set_writes_the_parsed_data (E := E) (A := A)
                     Examples.price_schema v Examples.product eq_refl)
              "item" (Admin.initial (E := A) O)) as (w' & Hrun & Hcalls & _).
  exists w'. split; [exact Hrun | exact Hcalls].
Defined.

(** ** Row ids over [firebase-admin] *)


Section CreatedIds.
Context {A : Admin.Environment}.



End CreatedIds.


(** ** A transition whose result has no [_id] *)

Section MissingId.
Context {E : Environment} {A : Admin.Environment}.

(** X19.  When [transitionByChild] finds a row and the updater's truthy
    result has no property [_id], the merge goes to the table path joined
    with the word [undefined], and carries every property of the result. *)
Theorem result_without_id_merges_at_undefined (fu : value -> value) :
  (forall (tb : Rest.FirebaseTable.t) (key : string) (v : value) (w : FirebaseSDK.world),
     exists legacy w1,
       Rest.FirebaseTable.findByChild tb key v w = (Ok legacy, w1) /\
       (truthy legacy = true -> truthy (fu legacy) = true ->
        assoc "_id" (own_entries (fu legacy)) = None ->
        exists w2,
          Rest.FirebaseTable.transitionByChild tb key v fu w = (Ok tt, w2) /\
          FirebaseSDK.requests w2 =
            (FirebaseSDK.requests w1 ++
             [FirebaseSDK.update_request (Rest.FirebaseTable.database tb)
                (Rest.FirebaseTable.name tb ++ "/undefined")
                (VObj (own_entries (fu legacy)))
                (FirebaseSDK.current_token w1)])%list)) /\
  (forall (tb : Admin.FirebaseTable.t) (key : string) (v : value) (w : Admin.world),
     exists legacy w1,
       Admin.FirebaseTable.findByChild tb key v w = (Ok legacy, w1) /\
       (truthy legacy = true -> truthy (fu legacy) = true ->
        assoc "_id" (own_entries (fu legacy)) = None ->
        exists w2,
          Admin.FirebaseTable.transitionByChild tb key v fu w = (Ok tt, w2) /\
          Admin.calls w2 =
            (Admin.calls w1 ++
             [Admin.Write (Admin.RefUpdate (Admin.FirebaseTable.name tb ++ "/undefined")
                             (VObj (own_entries (fu legacy))))])%list)).
Proof.
  assert (Hpath : forall u, assoc "_id" (own_entries u) = None ->
                            to_string (get_prop u "_id") = "undefined" /\
                            rest_without "_id" u = own_entries u).
  { intros u Hnone. unfold get_prop, rest_without. rewrite Hnone.
    split; [reflexivity | now apply filter_absent]. }
  split.
  - intros tb key v w.
    destruct (table_findByChild_run tb key v w) as (w1 & Hfind & _).
    do 2 eexists. split; [exact Hfind |]. intros Hl Hu Hnone.
    destruct (Hpath _ Hnone) as [Hp Hr].
    rewrite (table_transitionByChild_after _ _ _ _ _ _ _ Hfind), Hl, Hu. cbn [andb].
    rewrite Hp, Hr.
    match goal with
    | |- context [FirebaseSDK.update ?d ?p ?y w1] =>
        destruct (update_run d p y w1) as (w2 & Hrun & Hreq2 & _)
    end.
    exists w2. split; [exact Hrun | exact Hreq2].
  - intros tb key v w. pose proof (admin_findByChild_run tb key v w) as Hfind.
    cbv zeta in Hfind.
    do 2 eexists. split; [exact Hfind |]. intros Hl Hu Hnone.
    destruct (Hpath _ Hnone) as [Hp Hr].
    rewrite (admin_transitionByChild_after _ _ _ _ _ _ _ Hfind), Hl, Hu. cbn [andb].
    rewrite Hp, Hr. eexists. split; reflexivity.
Qed.

End MissingId.

(** ** Runs of the further properties on the example surroundings *)

Lemma rows_carry_their_keys_witness :
  let E1 := Examples.scripted (VObj [("r1", VObj [("_id", VStr "old"); ("price", VNum 1)])])
              VNull in
  let A0 := Examples.scripted_admin (Admin.mkSnapshot false VNull) in
  let tb := Rest.FirebaseTable.mk Examples.sdk Examples.price_schema "products" in
  let ta := Admin.FirebaseTable.mk Examples.price_schema "products" in
  (exists row,
     fst (Rest.FirebaseTable.findAll tb (FirebaseSDK.initial (E := E1) O)) = Ok [row] /\
     get_prop row "_id" = VStr "r1" /\ get_prop row "price" = VNum 1) /\
  fst (Admin.FirebaseTable.findAll ta (Admin.initial (E := A0) O)) = Ok [].
Proof.
  intros E1 A0 tb ta. split.
  - destruct (proj1 (proj1 (rows_carry_their_keys (E := E1) (A := A0))
                       tb "price" (VNum 1) (FirebaseSDK.initial (E := E1) O)))
      as (result & Hrun & _ & Hrows).
    specialize (Hrows eq_refl).
    inversion Hrows as [| id row ids rows [Hid Hother] Hrest]; subst.
    inversion Hrest; subst.
    exists row. split; [exact Hrun |]. split; [exact Hid |].
    rewrite Hother by discriminate. reflexivity.
  - destruct (proj1 (proj2 (rows_carry_their_keys (E := E1) (A := A0))
                       ta "price" (VNum 1) (Admin.initial (E := A0) O)))
      as (result & Hrun & Hnone & _).
    rewrite Hrun. f_equal. apply Hnone. reflexivity.
Defined.

Lemma findByChild_is_first_of_filterByChild_witness :
  let E1 := Examples.scripted
              (VObj [("r1", Examples.product); ("r2", Examples.product)]) VNull in
  let A0 := Examples.scripted_admin (Admin.mkSnapshot false VNull) in
  let tb := Rest.FirebaseTable.mk Examples.sdk Examples.price_schema "products" in
  fst (Rest.FirebaseTable.findByChild tb "price" (VNum 1) (FirebaseSDK.initial (E := E1) O))
  = Ok (VObj [("price", VNum 1); ("_id", VStr "r1")]).
Proof.
  intros E1 A0 tb.
  destruct (proj1 (findByChild_is_first_of_filterByChild (E := E1) (A := A0))
              tb "price" (VNum 1) (FirebaseSDK.initial (E := E1) O)) as (_ & Hfirst & _).
  apply (Hfirst _ [VObj [("price", VNum 1); ("_id", VStr "r2")]]). reflexivity.
Defined.

Lemma transitionById_merges_at_the_given_id_witness :
  let E1 := Examples.scripted Examples.product VNull in
  let A0 := Examples.scripted_admin (Admin.mkSnapshot false VNull) in
  let fu := fun _ : value => VObj [("_id", VStr "r9"); ("price", VNum 2)] in
  let tb := Rest.FirebaseTable.mk Examples.sdk Examples.price_schema "products" in
  exists w2,
    Rest.FirebaseTable.transitionById tb "r1" fu (FirebaseSDK.initial (E := E1) O)
    = (Ok tt, w2) /\
    map url (FirebaseSDK.requests w2)
    = [ "https://example.firebaseio.com/products/r1.json";
        "https://example.firebaseio.com/products/r1.json" ] /\
    map body (FirebaseSDK.requests w2)
    = [None; JSON_stringify (VObj [("_id", VStr "r9"); ("price", VNum 2)])].
Proof.
  intros E1 A0 fu tb.
  destruct (proj1 (transitionById_merges_at_the_given_id (E := E1) (A := A0) fu)
              tb "r1" (FirebaseSDK.initial (E := E1) O)) as (legacy & w1 & Hfind & Hmerge).
  injection Hfind as Hlegacy Hw1.
  destruct Hmerge as (w2 & Hrun & Hreq); [now rewrite <- Hlegacy | reflexivity |].
  exists w2. split; [exact Hrun |].
  rewrite Hreq, <- Hw1, <- Hlegacy. split; reflexivity.
Defined.

Lemma result_without_id_merges_at_undefined_witness :
  let E1 := Examples.scripted Examples.one_row VNull in
  let A0 := Examples.scripted_admin (Admin.mkSnapshot false VNull) in
  let fu := fun _ : value => VObj [("price", VNum 2)] in
  let tb := Rest.FirebaseTable.mk Examples.sdk Examples.price_schema "products" in
  exists w2,
    Rest.FirebaseTable.transitionByChild tb "price" (VNum 1) fu
      (FirebaseSDK.initial (E := E1) O) = (Ok tt, w2) /\
    map url (FirebaseSDK.requests w2)
    = [ "https://example.firebaseio.com/products.json?orderBy=%22price%22&equalTo=1";
        "https://example.firebaseio.com/products/undefined.json" ].
Proof.
  intros E1 A0 fu tb.
  destruct (proj1 (result_without_id_merges_at_undefined (E := E1) (A := A0) fu)
              tb "price" (VNum 1) (FirebaseSDK.initial (E := E1) O))
    as (legacy & w1 & Hfind & Hmerge).
  injection Hfind as Hlegacy Hw1.
  destruct Hmerge as (w2 & Hrun & Hreq);
    [now rewrite <- Hlegacy | reflexivity | reflexivity |].
  exists w2. split; [exact Hrun |].
  rewrite Hreq, <- Hw1. reflexivity.
Defined.

(** ** A lookup that matches no row, over REST *)

Section EmptyAnswer.
Context {E : Environment}.

(** C8 fails over REST.  When the store answers the filtered read with an
    object that has no key, no row matches the lookup: [filterByChild]
    returns the empty list.  [findByChild] nevertheless returns the row
    [{ _id: undefined }], so [transitionByChild] calls the updater with it,
    and a truthy result is merged (PATCH) at the path built from that
    result's [_id]: the store receives a write. *)
Theorem transitionByChild_writes_when_no_row_matches
    (tb : Rest.FirebaseTable.t) (key : string) (v : value) (fu : value -> value)
    (w : FirebaseSDK.world) :
  let db := Rest.FirebaseTable.database tb in
  let name := Rest.FirebaseTable.name tb in
  let g := FirebaseSDK.orderBy_request db name (Rest.FirebaseTable.child_query key v)
             (FirebaseSDK.current_token w) in
  let snapshot := store_read (FirebaseSDK.store w) g in
  let phantom := VObj [("_id", VUndefined)] in
  truthy snapshot = true ->
  Object_keys snapshot = [] ->
  truthy (fu phantom) = true ->
  fst (Rest.FirebaseTable.filterByChild tb key v w) = Ok [] /\
  exists w1 w2 r,
    Rest.FirebaseTable.findByChild tb key v w = (Ok phantom, w1) /\
    FirebaseSDK.store w1 = FirebaseSDK.store w /\
    Rest.FirebaseTable.transitionByChild tb key v fu w = (Ok tt, w2) /\
    FirebaseSDK.requests w2 = (FirebaseSDK.requests w ++ [g; r])%list /\
    r = FirebaseSDK.update_request db
          (name ++ "/" ++ to_string (get_prop (fu phantom) "_id"))
          (VObj (rest_without "_id" (fu phantom))) (FirebaseSDK.current_token w1) /\
    method r = PATCH /\
    FirebaseSDK.store w2 = snd (store_write r (FirebaseSDK.store w)).
Proof.
  intros db name g snapshot phantom Ht Hkeys Hfu.
  destruct (rest_filterByChild_run tb key v w) as (w1 & Hfilter & Hfind & Hreq & Hst).
  fold db name g snapshot in Hfilter, Hfind, Hreq.
  rewrite Ht in Hfilter, Hfind.
  assert (Hentries : own_entries snapshot = []).
  { unfold Object_keys in Hkeys. destruct (own_entries snapshot); [reflexivity | discriminate]. }
  assert (Hrow : spread_with_id
                   (get_prop snapshot (string_or_undefined (first_key snapshot)))
                   (first_key snapshot) = phantom).
  { unfold first_key, get_prop. rewrite Hkeys, Hentries. reflexivity. }
  rewrite Hrow in Hfind.
  split.
  { rewrite Hfilter. unfold Rest.FirebaseTable.rows. now rewrite Hkeys. }
  rewrite (table_transitionByChild_after _ _ _ _ _ _ _ Hfind), Hfu.
  cbn [truthy phantom andb]. fold db name.
  match goal with
  | |- context [FirebaseSDK.update db ?p ?y w1] =>
      destruct (update_run db p y w1) as (w2 & Hrun & Hreq2 & Hst2)
  end.
  exists w1, w2. eexists.
  split; [exact Hfind |]. split; [exact Hst |]. split; [exact Hrun |].
  split; [rewrite Hreq2, Hreq, <- app_assoc; reflexivity |].
  split; [reflexivity |]. split; [reflexivity |].
  rewrite Hst2, Hst. reflexivity.
Qed.

End EmptyAnswer.

(** The run: the store answers the filtered read with [{}]; the updater is
    [row => ({ ...row, price: 2 })]; [products/undefined] is merged and the
    store, which had applied no write, has applied one. *)
Lemma transitionByChild_writes_when_no_row_matches_witness :
  let E0 := Examples.scripted (VObj []) VNull in
  let tb := Rest.FirebaseTable.mk Examples.sdk Examples.price_schema "products" in
  let fu := fun row : value => VObj (obj_set "price" (VNum 2) (own_entries row)) in
  let w0 := FirebaseSDK.initial (E := E0) O in
  fst (Rest.FirebaseTable.filterByChild tb "price" (VNum 1) w0) = Ok [] /\
  exists w2,
    Rest.FirebaseTable.transitionByChild tb "price" (VNum 1) fu w0 = (Ok tt, w2) /\
    map (fun r => (method r, url r, body r)) (FirebaseSDK.requests w2)
    = [ (GET, "https://example.firebaseio.com/products.json?orderBy=%22price%22&equalTo=1",
         None);
        (PATCH, "https://example.firebaseio.com/products/undefined.json",
         JSON_stringify (VObj [("price", VNum 2)])) ] /\
    FirebaseSDK.store w0 = O /\ FirebaseSDK.store w2 = 1%nat.
Proof.
  intros E0 tb fu w0.
  destruct (transitionByChild_writes_when_no_row_matches (E := E0) tb "price" (VNum 1) fu w0
              eq_refl eq_refl eq_refl)
    as (Hfilter & w1 & w2 & r & Hfind & _ & Hrun & Hreq & Hr & _ & Hst).
  split; [exact Hfilter |].
  exists w2. split; [exact Hrun |].
  injection Hfind as Hw1.
  rewrite Hreq, Hst, Hr, <- Hw1. repeat split.
Defined.
